(** * ts-linker-sdk: the WebSocket client of [src/index.ts]

  A shallow embedding of class [Client]: the two header tables kept as
  [key=value;] strings, the registry of response listeners, the message
  handler that dispatches an inbound packet, and the reconnect logic.

  Conventions of the embedding.
  - A field the constructor never assigns holds JavaScript's [undefined];
    such fields have an option-like type whose first constructor stands for
    [undefined].
  - A method is a computation in the monad [M]: it reads and updates the
    [Client], may throw an [Error], and appends to a trace the calls it makes
    to the outside (user functions, [socket.send], [setTimeout], [console]).
    A user function is taken to return normally and to leave the client as
    it is.
  - Numbers are integers ([Z]); the source adds a 32-bit hash and a
    millisecond timestamp, which stay below 2^53 where JavaScript's numbers
    are exact.
  - [./packet], [./utils] and [./callback] are not part of the sources at
    hand: [Packet.pack], [Packet.unPack], [Utils.crc32] and the JSON codec
    are parameters of the development. *)

From Stdlib Require Import ZArith String Ascii List Bool Lia.
From Stdlib Require Import Numbers.DecimalString.
From stdpp Require Import base option gmap.
Import ListNotations.

Local Open Scope Z_scope.
Local Open Scope string_scope.

(* stdpp stops [simpl] from unfolding string concatenation; the proofs below
   compute with concrete prefixes. *)
#[local] Arguments String.append !s1 s2 : simpl nomatch.

(** ** JavaScript string primitives used by the source *)

Module Js.

(** [s.split(sep)] for a one-character separator: every occurrence of the
    separator ends a piece, so a string with n separators gives n+1 pieces
    and the empty string gives one empty piece. *)
Fixpoint split (sep : ascii) (s : string) : list string :=
  match s with
  | EmptyString => [EmptyString]
  | String a r =>
      if Ascii.eqb a sep then EmptyString :: split sep r
      else match split sep r with
           | [] => [String a EmptyString]
           | piece :: pieces => String a piece :: pieces
           end
  end.

(** [s.replace(pat, rep)] with a string pattern: only the first occurrence
    of [pat] (searched from the left, as a substring) is replaced. The source
    always passes the empty replacement, so the [$] patterns of a
    replacement string do not arise. *)
Fixpoint replace (pat rep s : string) : string :=
  if String.prefix pat s then rep ++ substring (String.length pat) (String.length s - String.length pat) s
  else match s with
       | EmptyString => EmptyString
       | String a r => String a (replace pat rep r)
       end.

(** A value that is either [undefined] or a string, as returned by an array
    access [kv[1]]. *)
Inductive Val : Type :=
| Undefined
| Str (s : string).

(** String concatenation converts [undefined] to the text "undefined". *)
Definition to_string (v : Val) : string :=
  match v with
  | Undefined => "undefined"
  | Str s => s
  end.

(** [v === key] for a string [key]. *)
Definition strict_eq (v : Val) (key : string) : bool :=
  match v with
  | Undefined => false
  | Str s => String.eqb s key
  end.

(** [typeof v !== 'undefined'] *)
Definition defined (v : Val) : bool :=
  match v with
  | Undefined => false
  | Str _ => true
  end.

(** [a[i]] on an array of strings. *)
Definition index (a : list string) (i : nat) : Val :=
  match nth_error a i with
  | Some s => Str s
  | None => Undefined
  end.

(** A number field that may never have been assigned: [undefined], the
    not-a-number value that arithmetic on [undefined] produces, or an
    integer. *)
Inductive Num : Type :=
| NumUndefined
| NaN
| Int (n : Z).

(** [x * k] *)
Definition times (x : Num) (k : Z) : Num :=
  match x with
  | Int n => Int (n * k)
  | _ => NaN
  end.

(** [x++] (the value stored back) *)
Definition incr (x : Num) : Num :=
  match x with
  | Int n => Int (n + 1)
  | _ => NaN
  end.

Definition Z_to_string (n : Z) : string :=
  NilEmpty.string_of_int (Z.to_int n).

Definition num_to_string (x : Num) : string :=
  match x with
  | NumUndefined => "undefined"
  | NaN => "NaN"
  | Int n => Z_to_string n
  end.

End Js.

(** ** Header table: [getRequestProperty], [setRequestProperty] and the
     response-side twins, as functions of the header string *)

Module Header.

(** The loop of [getRequestProperty] / [getResponseProperty] over the pieces
    of the header: the first piece whose text before [=] is the key decides;
    [None] when the loop ends without returning. *)
Fixpoint scan (key : string) (values : list string) : option Js.Val :=
  match values with
  | [] => None
  | piece :: rest =>
      let kv := Js.split "=" piece in
      if Js.strict_eq (Js.index kv 0) key
      then Some (Js.index kv 1)
      else scan key rest
  end.

(** [getRequestProperty]: falls off the end of the function when no piece
    matches, so the result is [undefined]. *)
Definition getRequestProperty (requestHeader key : string) : Js.Val :=
  match scan key (Js.split ";" requestHeader) with
  | Some v => v
  | None => Js.Undefined
  end.

(** [getResponseProperty]: ends with [return ''], so a key that is not in
    the header gives the empty string. *)
Definition getResponseProperty (responseHeader key : string) : Js.Val :=
  match scan key (Js.split ";" responseHeader) with
  | Some v => v
  | None => Js.Str EmptyString
  end.

(** [setRequestProperty]: the new header string. *)
Definition setRequestProperty (requestHeader key value : string) : string :=
  let v := getRequestProperty requestHeader key in
  let h := Js.replace (key ++ "=" ++ Js.to_string v ++ ";") EmptyString requestHeader in
  h ++ key ++ "=" ++ value ++ ";".

(** [setResponseProperty]: the new header string. *)
Definition setResponseProperty (responseHeader key value : string) : string :=
  let v := getResponseProperty responseHeader key in
  let h := Js.replace (key ++ "=" ++ Js.to_string v ++ ";") EmptyString responseHeader in
  h ++ key ++ "=" ++ value ++ ";".

(** The header string that a list of key/value pairs encodes to:
    [key=value;] tokens one after the other. *)
Fixpoint encode (kvs : list (string * string)) : string :=
  match kvs with
  | [] => EmptyString
  | (k, v) :: rest => k ++ "=" ++ v ++ ";" ++ encode rest
  end.

(** A text in which the character does not occur. *)
Fixpoint free_of (c : ascii) (s : string) : bool :=
  match s with
  | EmptyString => true
  | String a r => negb (Ascii.eqb a c) && free_of c r
  end.

(** A text free of the two separators. *)
Definition plain (s : string) : bool :=
  free_of ";" s && free_of "=" s.

Definition well_formed (kvs : list (string * string)) : bool :=
  forallb (fun kv => plain (fst kv) && plain (snd kv)) kvs.

(** The value of the first pair with the given key. *)
Fixpoint lookup (key : string) (kvs : list (string * string)) : option string :=
  match kvs with
  | [] => None
  | (k, v) :: rest => if String.eqb k key then Some v else lookup key rest
  end.

(** The keys of the tokens of a header string, in order. *)
Definition keys (header : string) : list string :=
  map (fun piece => Js.to_string (Js.index (Js.split "=" piece) 0))
      (removelast (Js.split ";" header)).

End Header.


(** ** Data model *)

(** Raw bytes of a frame. *)
Definition Bytes : Type := list Byte.byte.

(** A decoded JSON text. *)
#[local] Unset Elimination Schemes.
Inductive Json : Type :=
| JNull
| JBool (b : bool)
| JNumber (n : Z)
| JString (s : string)
| JArray (items : list Json)
| JObject (fields : list (string * Json)).
#[local] Set Elimination Schemes.

(** What a call passes as [operator]: [asyncSend] and the listener methods
    receive a name, [ping] passes the number 0. *)
Inductive Operator : Type :=
| OpName (name : string)
| OpNumber (n : Z).

(** The fields of a decoded [Packet] that [index.ts] reads. *)
Record Packet : Type := MkPacket {
  operator : Z;
  sequence : Z;
  headerLength : Z;
  bodyLength : Z;
  header : string;
  body : string
}.

(** A thrown value: an [Error] object with its [name] and [message]. *)
Record Error : Type := MkError {
  name : string;
  message : string
}.

(** [String(e)], which [new Error(e)] uses as the message of the new error. *)
Definition error_to_string (e : Error) : string :=
  if String.eqb (message e) EmptyString then name e
  else name e ++ ": " ++ message e.

(** An error raised by the engine itself. The message text differs between
    engines; the embedding fixes one wording per situation. *)
Definition TypeError (what : string) : Error := MkError "TypeError" what.

Inductive Completion (A : Type) : Type :=
| Return (a : A)
| Throw (e : Error).
Arguments Return {A} a.
Arguments Throw {A} e.

(** A user-supplied function, identified by a name. *)
Definition FunId : Type := string.

(** What a property of a callback object holds: nothing, [null], a value
    that is not a function, a function that is an own property of the
    object, or a function found on its prototype chain only. *)
Inductive Slot : Type :=
| Absent
| Null
| NotAFunction
| Function (f : FunId)
| Inherited (f : FunId).

(** Whether [o.p(args)] can be called. *)
Definition callable (s : Slot) : bool :=
  match s with
  | Function _ | Inherited _ => true
  | _ => false
  end.

(** [RequestCallback]: the per-call callback record. *)
Record RequestCallback : Type := MkRequestCallback {
  onStart : Slot;
  onSuccess : Slot;
  onError : Slot;
  onEnd : Slot
}.

(** [ReadyStateCallback]: the lifecycle callback record. The source names
    its third property [onError], as in [RequestCallback]. *)
Record ReadyStateCallback : Type := MkReadyStateCallback {
  onOpen : Slot;
  onClose : Slot;
  onSocketError : Slot
}.

(** The third argument of [asyncSend], which the method inspects with
    [typeof]: [typeof null] is ['object'] too. *)
Inductive CallbackArg : Type :=
| NotAnObject
| NullObject
| Object (callback : RequestCallback).

(** The functions stored in the registry [requestCallback]:
    the closure [asyncSend] builds (it captures [callback] and the key
    [listener]), the closure [ping] builds (it captures its argument
    [requestCallback]), or a function given to [addMessageListener]. *)
Inductive Listener : Type :=
| AsyncSendListener (callback : RequestCallback) (listener : Z)
| PingListener (callback : RequestCallback)
| UserListener (f : FunId).

(** [WebSocket.readyState] *)
Inductive ReadyState : Type :=
| CONNECTING
| OPEN
| CLOSING
| CLOSED.

Definition ready_state_eqb (a b : ReadyState) : bool :=
  match a, b with
  | CONNECTING, CONNECTING | OPEN, OPEN | CLOSING, CLOSING | CLOSED, CLOSED => true
  | _, _ => false
  end.

Record WebSocket : Type := MkWebSocket {
  ws_url : string;
  readyState : ReadyState
}.

(** [reconnectLock]: a boolean field the constructor does not assign. *)
Inductive Flag : Type :=
| FlagUndefined
| FlagBool (b : bool).

(** [!flag] *)
Definition flag_not (f : Flag) : bool :=
  match f with
  | FlagUndefined => true
  | FlagBool b => negb b
  end.

(** The fields of [Client]. [None] is [undefined]. *)
Record Client : Type := MkClient {
  requestCallback : option (gmap Z Listener);
  requestHeader : option string;
  responseHeader : option string;
  maxPayload : Z;
  url : string;
  reconnectTimes : Js.Num;
  reconnectLock : Flag;
  socket : WebSocket;
  readyStateCallback : ReadyStateCallback
}.

Definition MAX_PAYLOAD : Z := 1024 * 1024.

(** An argument handed to a user function. *)
Inductive Arg : Type :=
| ArgJson (data : Json)
| ArgVal (v : Js.Val)
| ArgNumberOf (v : Js.Val)   (* [Number(v)] *)
| ArgEvent.                  (* the transport's event object *)

(** What a method does to the outside, in order. *)
Inductive Event : Type :=
| Invoke (f : FunId) (args : list Arg)     (* a user function is called *)
| SocketSend (data : Bytes)                (* [this.socket.send(data)] *)
| SetTimeout (delay : Js.Num)              (* [setTimeout(<reconnect>, delay)] *)
| UnPack (buffer : Bytes)                  (* [new Packet().unPack(buffer)] *)
| Console (level : string) (args : list string).   (* [console.<level>], the texts recorded *)

(** The user functions called in a trace, in order. *)
Fixpoint invocations (t : list Event) : list (FunId * list Arg) :=
  match t with
  | [] => []
  | Invoke f args :: rest => (f, args) :: invocations rest
  | _ :: rest => invocations rest
  end.

(** The frames written to the socket in a trace, in order. *)
Fixpoint frames_sent (t : list Event) : list Bytes :=
  match t with
  | [] => []
  | SocketSend data :: rest => data :: frames_sent rest
  | _ :: rest => frames_sent rest
  end.

(** The delays of the timers started in a trace, in order. *)
Fixpoint timeouts (t : list Event) : list Js.Num :=
  match t with
  | [] => []
  | SetTimeout delay :: rest => delay :: timeouts rest
  | _ :: rest => timeouts rest
  end.

(** The code outside [index.ts] that the client calls. *)
Class Externals : Type := {
  (** Modelled from the spec: [Utils.crc32] of [./utils], which the spec
      describes only as a pure function to a 32-bit integer, supplied as a
      black box. *)
  crc32 : Operator -> Z;
  (** [Packet.pack] of [./packet]; the header it is given may be
      [undefined]. *)
  pack : Z -> Z -> Js.Val -> string -> Bytes;
  (** [Packet.unPack] of [./packet], which may throw. *)
  unPack : Bytes -> Completion Packet;
  (** [JSON.parse]; [None] when it throws a [SyntaxError]. *)
  JSON_parse : string -> option Json;
  (** [JSON.stringify] *)
  JSON_stringify : Json -> string
}.

(** ** The monad of methods: state, exceptions and a trace *)

Definition M (A : Type) : Type := Client -> Completion A * Client * list Event.

Definition ret {A} (a : A) : M A := fun c => (Return a, c, []).

Definition bind {A B} (m : M A) (k : A -> M B) : M B :=
  fun c =>
    match m c with
    | (Return a, c1, t1) =>
        match k a c1 with
        | (r, c2, t2) => (r, c2, (t1 ++ t2)%list)
        end
    | (Throw e, c1, t1) => (Throw e, c1, t1)
    end.

Definition throw {A} (e : Error) : M A := fun c => (Throw e, c, []).

(** [try { m } catch (e) { handler e }] *)
Definition try_catch {A} (m : M A) (handler : Error -> M A) : M A :=
  fun c =>
    match m c with
    | (Throw e, c1, t1) =>
        match handler e c1 with
        | (r, c2, t2) => (r, c2, (t1 ++ t2)%list)
        end
    | done => done
    end.

Definition get : M Client := fun c => (Return c, c, []).
Definition modify (f : Client -> Client) : M unit := fun c => (Return tt, f c, []).
Definition emit (e : Event) : M unit := fun c => (Return tt, c, [e]).

(** [M] is a monad for stdpp's notations [x ← m; k] and [m;; k]. *)
#[global] Instance M_ret : MRet M := @ret.
#[global] Instance M_bind : MBind M := fun A B k m => bind m k.

Definition set_requestCallback (v : option (gmap Z Listener)) (c : Client) : Client :=
  MkClient v (requestHeader c) (responseHeader c) (maxPayload c) (url c)
           (reconnectTimes c) (reconnectLock c) (socket c) (readyStateCallback c).
Definition set_requestHeader (v : option string) (c : Client) : Client :=
  MkClient (requestCallback c) v (responseHeader c) (maxPayload c) (url c)
           (reconnectTimes c) (reconnectLock c) (socket c) (readyStateCallback c).
Definition set_responseHeader (v : option string) (c : Client) : Client :=
  MkClient (requestCallback c) (requestHeader c) v (maxPayload c) (url c)
           (reconnectTimes c) (reconnectLock c) (socket c) (readyStateCallback c).
Definition set_maxPayload (v : Z) (c : Client) : Client :=
  MkClient (requestCallback c) (requestHeader c) (responseHeader c) v (url c)
           (reconnectTimes c) (reconnectLock c) (socket c) (readyStateCallback c).
Definition set_reconnectTimes (v : Js.Num) (c : Client) : Client :=
  MkClient (requestCallback c) (requestHeader c) (responseHeader c) (maxPayload c) (url c)
           v (reconnectLock c) (socket c) (readyStateCallback c).
Definition set_reconnectLock (v : Flag) (c : Client) : Client :=
  MkClient (requestCallback c) (requestHeader c) (responseHeader c) (maxPayload c) (url c)
           (reconnectTimes c) v (socket c) (readyStateCallback c).
Definition set_socket (v : WebSocket) (c : Client) : Client :=
  MkClient (requestCallback c) (requestHeader c) (responseHeader c) (maxPayload c) (url c)
           (reconnectTimes c) (reconnectLock c) v (readyStateCallback c).

(** ** The methods of [Client] *)

Section Methods.

Context {ext : Externals}.

(** [connect]: a new socket for [this.url], not yet open. Its four handlers
    are [ws_onopen], [ws_onclose], [ws_onerror] and [ws_onmessage] below. *)
Definition connect (c : Client) : WebSocket :=
  MkWebSocket (url c) CONNECTING.

(** [constructor]: assigns [maxPayload], [url], [readyStateCallback] and
    [socket], and nothing else. *)
Definition constructor (url : string) (readyStateCallback : ReadyStateCallback) : Client :=
  let this :=
    MkClient None None None MAX_PAYLOAD url Js.NumUndefined FlagUndefined
             (MkWebSocket url CONNECTING) readyStateCallback in
  set_socket (connect this) this.

(** [this.socket.readyState !== this.socket.OPEN] *)
Definition not_open (c : Client) : bool :=
  negb (ready_state_eqb (readyState (socket c)) OPEN).

(** Reading [this.requestCallback] in order to index it. *)
Definition registry : M (gmap Z Listener) :=
  c ← get;
  match requestCallback c with
  | Some reg => ret reg
  | None => throw (TypeError "Cannot read properties of undefined")
  end.

(** [this.requestCallback[key] = listener] *)
Definition registry_set (key : Z) (listener : Listener) : M unit :=
  c ← get;
  match requestCallback c with
  | Some reg => modify (set_requestCallback (Some (<[key := listener]> reg)))
  | None => throw (TypeError "Cannot set properties of undefined")
  end.

(** [delete this.requestCallback[key]] *)
Definition registry_delete (key : Z) : M unit :=
  c ← get;
  match requestCallback c with
  | Some reg => modify (set_requestCallback (Some (delete key reg)))
  | None => throw (TypeError "Cannot convert undefined or null to object")
  end.

(** A guarded call:
    [if (o.hasOwnProperty(p) && typeof o.p === 'function') o.p(args)] *)
Definition call_if_function (s : Slot) (args : list Arg) : M unit :=
  match s with
  | Function f => emit (Invoke f args)
  | _ => ret tt
  end.

(** An unguarded call [o.p(args)]. *)
Definition call (s : Slot) (args : list Arg) : M unit :=
  match s with
  | Function f | Inherited f => emit (Invoke f args)
  | _ => throw (TypeError "is not a function")
  end.

(** A call guarded only by [o.p !== null]. *)
Definition call_if_not_null (s : Slot) (args : list Arg) : M unit :=
  match s with
  | Null => ret tt
  | _ => call s args
  end.

(** [getRequestProperty(key)] *)
Definition getRequestProperty (key : string) : M Js.Val :=
  c ← get;
  match requestHeader c with
  | Some h => ret (Header.getRequestProperty h key)
  | None => throw (TypeError "Cannot read properties of undefined (reading 'split')")
  end.

(** [setRequestProperty(key, value)] *)
Definition setRequestProperty (key value : string) : M unit :=
  v ← getRequestProperty key;
  c ← get;
  match requestHeader c with
  | Some h =>
      let h1 := Js.replace (key ++ "=" ++ Js.to_string v ++ ";") EmptyString h in
      modify (set_requestHeader (Some (h1 ++ key ++ "=" ++ value ++ ";")))
  | None => throw (TypeError "Cannot read properties of undefined (reading 'replace')")
  end.

(** [getResponseProperty(key)] *)
Definition getResponseProperty (key : string) : M Js.Val :=
  c ← get;
  match responseHeader c with
  | Some h => ret (Header.getResponseProperty h key)
  | None => throw (TypeError "Cannot read properties of undefined (reading 'split')")
  end.

(** [setResponseProperty(key, value)] *)
Definition setResponseProperty (key value : string) : M unit :=
  v ← getResponseProperty key;
  c ← get;
  match responseHeader c with
  | Some h =>
      let h1 := Js.replace (key ++ "=" ++ Js.to_string v ++ ";") EmptyString h in
      modify (set_responseHeader (Some (h1 ++ key ++ "=" ++ value ++ ";")))
  | None => throw (TypeError "Cannot read properties of undefined (reading 'replace')")
  end.

(** [setMaxPayload(maxPayload)] *)
Definition setMaxPayload (maxPayload : Z) : M unit :=
  modify (set_maxPayload maxPayload).

(** [getReadyState()] *)
Definition getReadyState : M ReadyState :=
  c ← get; ret (readyState (socket c)).

(** [send(data)]: logs and returns when the socket is not open; the socket's
    own [send] does not throw on an open socket. *)
Definition send (data : Bytes) : M unit :=
  c ← get;
  if not_open c
  then emit (Console "error" ["WebSocket is already in CLOSING or CLOSED state."])
  else emit (SocketSend data).

(** [addMessageListener(operator, listener)] *)
Definition addMessageListener (operator : Operator) (listener : Listener) : M unit :=
  registry_set (crc32 operator) listener.

(** [removeMessageListener(operator)] *)
Definition removeMessageListener (operator : Operator) : M unit :=
  registry_delete (crc32 operator).

(** The closure [asyncSend] stores in the registry (lines 91-118). *)
Definition asyncSend_listener (callback : RequestCallback) (listener : Z) (data : Json) : M unit :=
  code ← getResponseProperty "code";
  (if Js.defined code
   then
     message ← getResponseProperty "message";
     call_if_function (onError callback) [ArgVal code; ArgVal message]
   else
     call_if_function (onSuccess callback) [ArgJson data]);;
  call_if_function (onEnd callback) [];;
  registry_delete listener.

(** The closure [ping] stores in the registry (lines 35-47). *)
Definition ping_listener (requestCallback : RequestCallback) (data : Json) : M unit :=
  code ← getResponseProperty "code";
  (if Js.defined code
   then
     message ← getResponseProperty "message";
     call_if_not_null (onError requestCallback) [ArgNumberOf code; ArgVal message]
   else
     call (onSuccess requestCallback) [ArgJson data]);;
  call (onEnd requestCallback) [].

(** Calling a function taken from the registry. *)
Definition run_listener (l : Listener) (data : Json) : M unit :=
  match l with
  | AsyncSendListener callback listener => asyncSend_listener callback listener data
  | PingListener requestCallback => ping_listener requestCallback data
  | UserListener f => emit (Invoke f [ArgJson data])
  end.

(** [ping(param, requestCallback)] *)
Definition ping (param : Json) (requestCallback : RequestCallback) : M unit :=
  c ← get;
  if not_open c then throw (MkError "Error" "asyncSend: connection refuse")
  else
    addMessageListener (OpNumber 0) (PingListener requestCallback);;
    c ← get;
    send (pack 0 0 (from_option Js.Str Js.Undefined (requestHeader c)) (JSON_stringify param)).

(** [asyncSend(operator, param, callback)]; [now] is what
    [new Date().getTime()] returns during the call. Of the line logged first
    the event records the constant text alone: the operator, the request
    header and the parameter that [console.info] prints after it are left
    out. *)
Definition asyncSend (operator : Operator) (param : Json) (callback : CallbackArg)
    (now : Z) : M unit :=
  emit (Console "info" ["websocket send data"]);;
  match callback with
  | NotAnObject => throw (MkError "Error" "callback must be an object")
  | _ =>
      c ← get;
      if not_open c then throw (MkError "Error" "asyncSend: connection refuse")
      else
        match callback with
        | Object callback =>
            call_if_function (onStart callback) [];;
            let sequence := now in
            let listener := crc32 operator + sequence in
            registry_set listener (AsyncSendListener callback listener);;
            c ← get;
            send (pack (crc32 operator) sequence
                       (from_option Js.Str Js.Undefined (requestHeader c))
                       (JSON_stringify param))
        | _ => throw (TypeError "Cannot read properties of null (reading 'hasOwnProperty')")
        end
  end.

(** [syncSend]: awaits [asyncSend], which returns nothing. *)
Definition syncSend (operator : Operator) (param : Json) (callback : CallbackArg)
    (now : Z) : M unit :=
  asyncSend operator param callback now.

(** [reconnect()] *)
Definition reconnect : M unit :=
  c ← get;
  if flag_not (reconnectLock c)
  then
    modify (set_reconnectLock (FlagBool true));;
    emit (Console "info" ["websocket reconnect in " ++ Js.num_to_string (reconnectTimes c) ++ "s"]);;
    emit (SetTimeout (Js.times (reconnectTimes c) 1000))
  else ret tt.

(** The function [reconnect] hands to [setTimeout]. *)
Definition reconnect_timer : M unit :=
  modify (fun c => set_reconnectTimes (Js.incr (reconnectTimes c)) c);;
  modify (fun c => set_socket (connect c) c);;
  modify (set_reconnectLock (FlagBool false)).

(** [ws.onopen] *)
Definition ws_onopen : M unit :=
  modify (set_reconnectTimes (Js.Int 0));;
  c ← get;
  call_if_function (onOpen (readyStateCallback c)) [ArgEvent].

(** [ws.onclose] *)
Definition ws_onclose : M unit :=
  reconnect;;
  c ← get;
  call_if_function (onClose (readyStateCallback c)) [ArgEvent].

(** [ws.onerror] *)
Definition ws_onerror : M unit :=
  reconnect;;
  c ← get;
  call_if_function (onSocketError (readyStateCallback c)) [ArgEvent].

(** What a message event carries. *)
Inductive MessageData : Type :=
| Blob (buffer : Bytes)
| Text (s : string).

(** The body of [reader.onload], inside its [try]. The key of the lookup is
    the sum of two integers; the source adds them as doubles, which is the
    same number as long as the sum stays below 2^53. *)
Definition onload_body (buffer : Bytes) : M unit :=
  emit (UnPack buffer);;
  match unPack buffer with
  | Throw e => throw e
  | Return packet =>
      let packetLength := headerLength packet + bodyLength packet + 20 in
      if (MAX_PAYLOAD <? packetLength)%Z
      then throw (MkError "Error" ("the packet is big than " ++ Js.Z_to_string MAX_PAYLOAD))
      else
        let operator := operator packet + sequence packet in
        reg ← registry;
        body ←
          match reg !! operator with
          | Some listener =>
              let body := if String.eqb (body packet) EmptyString then "{}" else body packet in
              modify (set_responseHeader (Some (header packet)));;
              match JSON_parse body with
              | Some data => (run_listener listener data;; ret body)
              | None => throw (MkError "SyntaxError" "Unexpected token in JSON")
              end
          | None => ret (body packet)
          end;
        if negb (operator =? 0)%Z && negb (String.eqb body "null")
        then emit (Console "info" ["receive data"; body])
        else ret tt
  end.

(** [ws.onmessage], with the file reader's [onload] run at once. *)
Definition ws_onmessage (data : MessageData) : M unit :=
  match data with
  | Blob buffer =>
      try_catch (onload_body buffer)
        (fun e =>
           emit (Console "info" [error_to_string e]);;
           throw (MkError "Error" (error_to_string e)))
  | Text _ => throw (MkError "Error" "websocket unsupported data format")
  end.

End Methods.

(** ** The event loop around the client *)

(** The client together with the timers [setTimeout] has started and that
    have not fired yet, and everything done so far. *)
Record World : Type := MkWorld {
  client : Client;
  timers : list Js.Num;
  log : list Event
}.

(** What the event loop delivers to the client. *)
Inductive Incoming : Type :=
| SocketOpen
| SocketClose
| SocketError
| TimerFires
| Message (data : MessageData).

Definition is_open (i : Incoming) : bool :=
  match i with
  | SocketOpen => true
  | _ => false
  end.

Definition is_message (i : Incoming) : bool :=
  match i with
  | Message _ => true
  | _ => false
  end.

(** The transport changes the socket's [readyState] before it calls the
    handler. *)
Definition set_readyState (s : ReadyState) (c : Client) : Client :=
  set_socket (MkWebSocket (ws_url (socket c)) s) c.

(** Run a handler to its end; a timer it starts is added to the pending ones.
    An exception that escapes a handler is reported by the host and the
    loop goes on. *)
Definition run_handler {A} (m : M A) (c : Client) (pending : list Js.Num)
    (done : list Event) : World :=
  match m c with
  | (_, c1, t) => MkWorld c1 (pending ++ timeouts t)%list (done ++ t)%list
  end.

Section Loop.

Context {ext : Externals}.

Definition step (w : World) (i : Incoming) : World :=
  match i with
  | SocketOpen => run_handler ws_onopen (set_readyState OPEN (client w)) (timers w) (log w)
  | SocketClose => run_handler ws_onclose (set_readyState CLOSED (client w)) (timers w) (log w)
  | SocketError => run_handler ws_onerror (client w) (timers w) (log w)
  | TimerFires =>
      match timers w with
      | [] => w
      | _ :: pending => run_handler reconnect_timer (client w) pending (log w)
      end
  | Message data => run_handler (ws_onmessage data) (client w) (timers w) (log w)
  end.

Definition steps (w : World) (events : list Incoming) : World :=
  fold_left step events w.

End Loop.

(** A world with nothing pending and nothing done. *)
Definition start (c : Client) : World := MkWorld c [] [].

(** The delays of linear backoff: 0, 1000, ..., (n - 1) * 1000 milliseconds. *)
Definition linear_delays (n : nat) : list Js.Num :=
  map (fun i => Js.Int (Z.of_nat i * 1000)) (seq 0 n).

(** The events that concern reconnecting only. *)
Definition reconnect_only (i : Incoming) : bool :=
  match i with
  | SocketClose | SocketError | TimerFires => true
  | _ => false
  end.

(** [n] times: the socket closes, then the pending timer fires. *)
Fixpoint close_rounds (n : nat) : list Incoming :=
  match n with
  | O => []
  | S k => SocketClose :: TimerFires :: close_rounds k
  end.

(** The part of the world that reconnecting reads and writes, and what each
    event does to it. *)
Module Backoff.

Record View : Type := MkView {
  times : Js.Num;
  lock : Flag;
  pending : list Js.Num;
  scheduled : list Js.Num
}.

Definition trigger (v : View) : View :=
  if flag_not (lock v)
  then MkView (times v) (FlagBool true)
              (pending v ++ [Js.times (times v) 1000])%list
              (scheduled v ++ [Js.times (times v) 1000])%list
  else v.

Definition step (v : View) (i : Incoming) : View :=
  match i with
  | SocketOpen => MkView (Js.Int 0) (lock v) (pending v) (scheduled v)
  | SocketClose | SocketError => trigger v
  | TimerFires =>
      match pending v with
      | [] => v
      | _ :: rest => MkView (Js.incr (times v)) (FlagBool false) rest (scheduled v)
      end
  | Message _ => v
  end.

(** After [n] attempts were issued: either nothing is pending, or the
    attempt number [n + 1] is, with its delay of [n] seconds. *)
Definition invariant (v : View) : Prop :=
  exists n : nat,
    times v = Js.Int (Z.of_nat n)
    /\ ((flag_not (lock v) = true /\ pending v = [] /\ scheduled v = linear_delays n)
        \/ (lock v = FlagBool true /\ pending v = [Js.Int (Z.of_nat n * 1000)]
            /\ scheduled v = linear_delays (S n))).

End Backoff.

Definition view (w : World) : Backoff.View :=
  Backoff.MkView (reconnectTimes (client w)) (reconnectLock (client w))
                 (timers w) (timeouts (log w)).

(** The calls made for a property of a callback object that is called only
    when it holds a function. *)
Definition calls_of (s : Slot) (args : list Arg) : list (FunId * list Arg) :=
  match s with
  | Function f => [(f, args)]
  | _ => []
  end.

(** The body handed to [JSON.parse] for a matched packet. *)
Definition parsed_body (p : Packet) : string :=
  if String.eqb (body p) EmptyString then "{}" else body p.

(** ** Concrete stand-ins for the code outside [index.ts]

    They are used to run the client on explicit inputs. *)

Module Wire.

(** Modelled from the spec: the frame layout of [Packet.pack] and
    [Packet.unPack] (the file [./packet] is missing) as section 6 gives it:
    operator (4 bytes), sequence (8 bytes, signed), header length (4), body
    length (4), header bytes, body bytes; integers big-endian. *)
Fixpoint big_endian (width : nat) (n : Z) : Bytes :=
  match width with
  | O => []
  | S w =>
      match Byte.of_N (Z.to_N (Z.land (Z.shiftr n (8 * Z.of_nat w)) 255)) with
      | Some b => b :: big_endian w n
      | None => big_endian w n
      end
  end.

Definition read_unsigned (bs : Bytes) : Z :=
  fold_left (fun acc b => acc * 256 + Z.of_N (Byte.to_N b)) bs 0.

Definition read_signed64 (bs : Bytes) : Z :=
  let u := read_unsigned bs in
  if (u <? 2 ^ 63)%Z then u else u - 2 ^ 64.

Definition slice (from len : nat) (bs : Bytes) : Bytes :=
  firstn len (skipn from bs).

Definition pack (operator sequence : Z) (header : Js.Val) (body : string) : Bytes :=
  let h := list_byte_of_string (Js.to_string header) in
  let b := list_byte_of_string body in
  (big_endian 4 operator ++ big_endian 8 sequence
   ++ big_endian 4 (Z.of_nat (List.length h)) ++ big_endian 4 (Z.of_nat (List.length b))
   ++ h ++ b)%list.

(** With [strict], a buffer shorter than the lengths it declares is refused,
    as the spec asks of the decoder. Without, the decoder does not compare
    them and the two slices stop at the end of the buffer, as
    [ArrayBuffer.slice] does. *)
Definition unPack (strict : bool) (bs : Bytes) : Completion Packet :=
  if (List.length bs <? 20)%nat
  then Throw (MkError "RangeError" "Offset is outside the bounds of the DataView")
  else
    let hl := read_unsigned (slice 12 4 bs) in
    let bl := read_unsigned (slice 16 4 bs) in
    if strict && (Z.of_nat (List.length bs) <? 20 + hl + bl)%Z
    then Throw (MkError "RangeError" "Offset is outside the bounds of the DataView")
    else
      Return (MkPacket (read_unsigned (slice 0 4 bs)) (read_signed64 (slice 4 8 bs)) hl bl
                (string_of_list_byte (slice 20 (Z.to_nat hl) bs))
                (string_of_list_byte (slice (20 + Z.to_nat hl) (Z.to_nat bl) bs))).

End Wire.

Module Crc.

(** The CRC-32 checksum (reflected polynomial 0xEDB88320) of a text. *)
Fixpoint shift_bits (n : nat) (crc : Z) : Z :=
  match n with
  | O => crc
  | S k =>
      shift_bits k (if Z.odd crc then Z.lxor (Z.shiftr crc 1) 3988292384 else Z.shiftr crc 1)
  end.

Definition update (crc : Z) (a : ascii) : Z :=
  shift_bits 8 (Z.lxor crc (Z.of_N (N_of_ascii a))).

Definition of_string (s : string) : Z :=
  Z.lxor (fold_left update (list_ascii_of_string s) 4294967295) 4294967295.

(** Modelled from the spec: [Utils.crc32] (the file [./utils] is missing), a
    hash of a text to a 32-bit integer. The spec does not say what it gives
    for the number 0 that [ping] passes. In this reading the loop over the
    characters of the argument does nothing for a number, which leaves the
    checksum of the empty text. *)
Definition of_characters (operator : Operator) : Z :=
  match operator with
  | OpName name => of_string name
  | OpNumber _ => of_string EmptyString
  end.

End Crc.

Module Atoms.

(** [JSON.parse] and [JSON.stringify] restricted to the texts the examples
    below exchange: the literals and the empty containers. *)
Definition parse (s : string) : option Json :=
  if String.eqb s "{}" then Some (JObject [])
  else if String.eqb s "[]" then Some (JArray [])
  else if String.eqb s "null" then Some JNull
  else if String.eqb s "true" then Some (JBool true)
  else if String.eqb s "false" then Some (JBool false)
  else None.

Definition stringify (j : Json) : string :=
  match j with
  | JNull => "null"
  | JBool true => "true"
  | JBool false => "false"
  | JNumber n => Js.Z_to_string n
  | JString s => String (ascii_of_nat 34) (s ++ String (ascii_of_nat 34) EmptyString)
  | JArray _ => "[]"
  | JObject _ => "{}"
  end.

End Atoms.

(** The client run with a given hash and decoder. *)
Definition stand_in (hash : Operator -> Z) (strict : bool) : Externals :=
  Build_Externals hash Wire.pack (Wire.unPack strict) Atoms.parse Atoms.stringify.

(** A client in use: the embedding application has given the registry and
    the two headers a value, and the socket is open. *)
Definition ready_client (reg : gmap Z Listener) (requestHeader : string) : Client :=
  MkClient (Some reg) (Some requestHeader) (Some EmptyString) MAX_PAYLOAD "ws://host"
           (Js.Int 0) (FlagBool false) (MkWebSocket "ws://host" OPEN)
           (MkReadyStateCallback Absent Absent Absent).

(** The three parts of what a method gives. *)
Definition completion_of {A} (o : Completion A * Client * list Event) : Completion A :=
  fst (fst o).
Definition client_of {A} (o : Completion A * Client * list Event) : Client :=
  snd (fst o).
Definition trace_of {A} (o : Completion A * Client * list Event) : list Event :=
  snd o.

(** What the message handler logs at its end, given the body as the handler
    left it. *)
Definition receive_log (key : Z) (body : string) : list Event :=
  if negb (key =? 0)%Z && negb (String.eqb body "null")
  then [Console "info" ["receive data"; body]]
  else [].

(** ** Explicit inputs *)

Module Sample.

(** The stand-ins: the hash that gives 0 for the number 0 with the strict
    decoder, and the same hash with the decoder without the length
    comparison. *)
Definition characters : Externals := stand_in Crc.of_characters true.
Definition lenient : Externals := stand_in Crc.of_characters false.

(** A callback object with its four functions, and one with none. *)
Definition hooks : RequestCallback :=
  MkRequestCallback (Function "onStart") (Function "onSuccess")
                    (Function "onError") (Function "onEnd").
Definition no_hooks : RequestCallback :=
  MkRequestCallback Absent Absent Absent Absent.

(** A client in use with an empty registry and an empty request header. *)
Definition idle : Client := ready_client ∅ EmptyString.

(** The time of the call in the examples, and the key of a call to the
    operator [echo] at that time. *)
Definition now : Z := 1700000000000.
Definition echo_key : Z := Crc.of_string "echo" + now.

(** The frame a server answers with. *)
Definition frame (operator sequence : Z) (header body : string) : Bytes :=
  Wire.pack operator sequence (Js.Str header) body.

Definition echo_reply (header body : string) : Bytes :=
  frame (Crc.of_string "echo") now header body.

(** Twenty bytes: the preamble of a frame that declares a header of 1 MiB,
    with nothing after it. *)
Definition truncated_frame : Bytes :=
  (Wire.big_endian 4 1 ++ Wire.big_endian 8 0
   ++ Wire.big_endian 4 1048576 ++ Wire.big_endian 4 0)%list.

(** The client after [asyncSend("echo", null, hooks)] at time [now]. *)
Definition awaiting_echo : Client :=
  ready_client {[ echo_key := AsyncSendListener hooks echo_key ]} EmptyString.

End Sample.

(** ** Searching a text *)

Module Search.

(** [s.includes(pat)]: the text [pat] occurs somewhere in [s]. *)
Fixpoint includes (pat s : string) : bool :=
  if String.prefix pat s then true
  else match s with
       | EmptyString => false
       | String _ r => includes pat r
       end.

(** No occurrence of [pat] in [before ++ rest] starts inside [before]. *)
Fixpoint clear_before (pat before rest : string) : bool :=
  match before with
  | EmptyString => true
  | String _ r => negb (String.prefix pat (before ++ rest)) && clear_before pat r rest
  end.

(** [s.endsWith(suffix)] *)
Fixpoint ends_with (suffix s : string) : bool :=
  String.eqb s suffix
  || match s with
     | EmptyString => false
     | String _ r => ends_with suffix r
     end.

(** No key of the pairs ends with the given key; in particular none is the
    key. *)
Definition no_key_ends_with (key : string) (kvs : list (string * string)) : bool :=
  forallb (fun kv => negb (ends_with key (fst kv))) kvs.

End Search.

(** ** What a message leaves alone *)

(** Two clients that differ at most in the registry and the response
    header. *)
Definition same_connection (c c' : Client) : Prop :=
  requestHeader c' = requestHeader c
  /\ maxPayload c' = maxPayload c
  /\ url c' = url c
  /\ reconnectTimes c' = reconnectTimes c
  /\ reconnectLock c' = reconnectLock c
  /\ socket c' = socket c
  /\ readyStateCallback c' = readyStateCallback c.

(** Two clients with the same registry, headers and payload limit. *)
Definition same_tables (c c' : Client) : Prop :=
  requestCallback c' = requestCallback c
  /\ requestHeader c' = requestHeader c
  /\ responseHeader c' = responseHeader c
  /\ maxPayload c' = maxPayload c
  /\ url c' = url c.

(** The calls the closure of [asyncSend] makes for a callback, given the
    response header and the parsed body. *)
Definition asyncSend_calls (callback : RequestCallback) (h : string) (data : Json)
    : list (FunId * list Arg) :=
  ((if Js.defined (Header.getResponseProperty h "code")
    then calls_of (onError callback)
           [ArgVal (Header.getResponseProperty h "code");
            ArgVal (Header.getResponseProperty h "message")]
    else calls_of (onSuccess callback) [ArgJson data])
   ++ calls_of (onEnd callback) [])%list.

(** ** More explicit inputs *)

Module Scene.

(** The client in use after its socket has closed, and a client just built
    whose socket has opened. *)
Definition closed : Client := set_readyState CLOSED Sample.idle.
Definition unprepared : Client :=
  set_readyState OPEN (constructor "ws://host" (MkReadyStateCallback Absent Absent Absent)).

(** A client in use whose request header holds three tokens. *)
Definition with_header (h : string) : Client := ready_client ∅ h.

(** A second callback object. *)
Definition other_hooks : RequestCallback :=
  MkRequestCallback (Function "start2") (Function "success2")
                    (Function "error2") (Function "end2").

(** A frame pushed for the operator [news], and what it decodes to. *)
Definition news_key : Z := Crc.of_string "news".
Definition news_frame : Bytes := Sample.frame news_key 0 EmptyString "{}".
Definition news_packet : Packet := MkPacket news_key 0 0 2 EmptyString "{}".

(** What a reply to the call of [Sample.awaiting_echo] decodes to. *)
Definition echo_packet (header body : string) : Packet :=
  MkPacket (Crc.of_string "echo") Sample.now
           (Z.of_nat (String.length header)) (Z.of_nat (String.length body)) header body.

(** The socket closes, the reconnect timer fires, the new socket opens. *)
Definition reconnection : list Incoming := [SocketClose; TimerFires; SocketOpen].

(** A callback object whose functions all come from its prototype: each is a
    function, none is the object's own property. *)
Definition inherited_hooks : RequestCallback :=
  MkRequestCallback (Inherited "onStart") (Inherited "onSuccess")
                    (Inherited "onError") (Inherited "onEnd").

(** The client after [asyncSend("echo", null, callback)] at time
    [Sample.now]. *)
Definition awaiting (callback : RequestCallback) : Client :=
  ready_client {[ Sample.echo_key := AsyncSendListener callback Sample.echo_key ]}
               EmptyString.

(** Twenty bytes: the preamble of a frame with the given operator code and
    sequence that declares a header of 1 MiB, with nothing after it. *)
Definition oversized (operator sequence : Z) : Bytes :=
  (Wire.big_endian 4 operator ++ Wire.big_endian 8 sequence
   ++ Wire.big_endian 4 1048576 ++ Wire.big_endian 4 0)%list.

(** The time at which a call to the operator [news] gets the key of the call
    to [echo] at [Sample.now]. *)
Definition collision_time : Z := Sample.echo_key - news_key.

End Scene.

(** An argument that hands over the value of a header's [code] token: the
    text as it stands in the header, or [Number] of that text. *)
Definition carries_code (code : string) (a : Arg) : Prop :=
  a = ArgVal (Js.Str code) \/ a = ArgNumberOf (Js.Str code).

(** * Properties *)

(** ** The string primitives on concrete texts *)

Example split_empty : Js.split ";" EmptyString = [EmptyString].
Proof. reflexivity. Qed.

Example split_header :
  Js.split ";" "code=404;message=not+found;"
  = ["code=404"; "message=not+found"; EmptyString].
Proof. reflexivity. Qed.

Example replace_first_only : Js.replace "b=1;" EmptyString "ab=1;c=2;b=1;" = "ac=2;b=1;".
Proof. reflexivity. Qed.

Example get_missing_request : Header.getRequestProperty "a=1;" "code" = Js.Undefined.
Proof. reflexivity. Qed.

Example get_missing_response :
  Header.getResponseProperty "a=1;" "code" = Js.Str EmptyString.
Proof. reflexivity. Qed.

Example crc32_check_value : Crc.of_string "123456789" = 3421780262.
Proof. vm_compute. reflexivity. Qed.

Example wire_round_trip :
  Wire.unPack true (Wire.pack 5 (-3) (Js.Str "a=1;") "{}")
  = Return (MkPacket 5 (-3) 4 2 "a=1;" "{}").
Proof. vm_compute. reflexivity. Qed.

(** ** Reading a well-formed header *)

Module HeaderFacts.

Lemma split_free c x r :
  Header.free_of c x = true ->
  Js.split c (x ++ String c r) = x :: Js.split c r.
Proof.
  induction x as [|a x IH]; simpl.
  - intros _. rewrite Ascii.eqb_refl. reflexivity.
  - rewrite andb_true_iff, negb_true_iff. intros [Ha Hx].
    rewrite Ha, (IH Hx). reflexivity.
Qed.

Lemma split_free_whole c x :
  Header.free_of c x = true -> Js.split c x = [x].
Proof.
  induction x as [|a x IH]; simpl.
  - reflexivity.
  - rewrite andb_true_iff, negb_true_iff. intros [Ha Hx].
    rewrite Ha, (IH Hx). reflexivity.
Qed.

Lemma free_of_append c x y :
  Header.free_of c (x ++ y) = Header.free_of c x && Header.free_of c y.
Proof.
  induction x as [|a x IH]; simpl; [reflexivity|].
  rewrite IH, andb_assoc. reflexivity.
Qed.

(** A token [k=v] splits into its key and its value. *)
Lemma split_token k v :
  Header.plain k = true -> Header.plain v = true ->
  Js.split "=" (k ++ String "=" v) = [k; v].
Proof.
  unfold Header.plain. rewrite !andb_true_iff. intros [_ Hk] [_ Hv].
  rewrite (split_free "=" k v Hk), (split_free_whole "=" v Hv). reflexivity.
Qed.

(** Splitting at [;] cuts a token off the front. *)
Lemma no_semicolon_token k v r :
  Header.plain k = true -> Header.plain v = true ->
  Js.split ";" ((k ++ String "=" v) ++ String ";" r)
  = (k ++ String "=" v) :: Js.split ";" r.
Proof.
  unfold Header.plain. rewrite !andb_true_iff. intros [Hk _] [Hv _].
  apply split_free. rewrite free_of_append. simpl. rewrite Hk, Hv. reflexivity.
Qed.

Lemma append_assoc (a b c : string) : (a ++ b) ++ c = a ++ (b ++ c).
Proof. induction a as [|x a IH]; simpl; [reflexivity | f_equal; exact IH]. Qed.

(** Scanning the pieces of an encoded header finds the first pair with the
    key; past the last token only the empty piece is left. *)
Lemma scan_encode key kvs :
  Header.well_formed kvs = true ->
  Header.scan key (Js.split ";" (Header.encode kvs))
  = match Header.lookup key kvs with
    | Some v => Some (Js.Str v)
    | None => if String.eqb EmptyString key then Some Js.Undefined else None
    end.
Proof.
  induction kvs as [|[k v] kvs IH]; intros Hwf.
  - simpl. destruct (String.eqb EmptyString key); reflexivity.
  - simpl in Hwf. rewrite !andb_true_iff in Hwf. destruct Hwf as [[Hk Hv] Hwf].
    change (Header.encode ((k, v) :: kvs))
      with (k ++ "=" ++ v ++ ";" ++ Header.encode kvs).
    replace (k ++ "=" ++ v ++ ";" ++ Header.encode kvs)
      with ((k ++ String "=" v) ++ String ";" (Header.encode kvs)).
    2:{ rewrite append_assoc. simpl. reflexivity. }
    rewrite (no_semicolon_token k v _ Hk Hv).
    simpl Header.scan. rewrite (split_token k v Hk Hv). simpl.
    destruct (String.eqb k key); [reflexivity | apply IH, Hwf].
Qed.

(** [getResponseProperty] on an encoded header, for a key that is not
    empty. *)
Lemma getResponseProperty_encode key kvs :
  Header.well_formed kvs = true -> key <> EmptyString ->
  Header.getResponseProperty (Header.encode kvs) key
  = Js.Str (default EmptyString (Header.lookup key kvs)).
Proof.
  intros Hwf Hkey. unfold Header.getResponseProperty.
  rewrite (scan_encode key kvs Hwf).
  destruct (Header.lookup key kvs); [reflexivity|].
  destruct (String.eqb_spec EmptyString key); [congruence | reflexivity].
Qed.

(** For a well-formed header [getResponseProperty] never answers
    [undefined] for the key [code], whether the key is there or not. *)
Lemma code_is_always_defined kvs :
  Header.well_formed kvs = true ->
  Js.defined (Header.getResponseProperty (Header.encode kvs) "code") = true.
Proof.
  intros Hwf. rewrite (getResponseProperty_encode "code" kvs Hwf) by discriminate.
  reflexivity.
Qed.

End HeaderFacts.

(** ** Running the methods *)

Section Proofs.

Context {ext : Externals}.

Ltac unfold_monad :=
  cbv [mbind mret M_bind M_ret bind ret get modify emit throw try_catch].

(* Case analysis on the innermost scrutinee the goal is stuck on. *)
Ltac split_match :=
  match goal with
  | |- context [match ?x with _ => _ end] =>
      lazymatch x with
      | context [match _ with _ => _ end] => fail
      | _ => destruct x eqn:?
      end
  end.

Lemma invocations_app t1 t2 :
  invocations (t1 ++ t2)%list = (invocations t1 ++ invocations t2)%list.
Proof.
  induction t1 as [|e t1 IH]; simpl; [reflexivity|].
  destruct e; simpl; rewrite IH; reflexivity.
Qed.

Lemma timeouts_app t1 t2 :
  timeouts (t1 ++ t2)%list = (timeouts t1 ++ timeouts t2)%list.
Proof.
  induction t1 as [|e t1 IH]; simpl; [reflexivity|].
  destruct e; simpl; rewrite IH; reflexivity.
Qed.

Lemma invocations_receive_log key body : invocations (receive_log key body) = [].
Proof. unfold receive_log. destruct (_ && _); reflexivity. Qed.

(** The closure of [asyncSend], run on a client that has a registry and a
    response header: it calls [onError] or [onSuccess] according to
    [typeof code], then [onEnd], then deletes its own entry. *)
Lemma asyncSend_listener_runs callback key data c reg h :
  requestCallback c = Some reg ->
  responseHeader c = Some h ->
  exists t,
    asyncSend_listener callback key data c
    = (Return tt, set_requestCallback (Some (delete key reg)) c, t)
    /\ invocations t
       = ((if Js.defined (Header.getResponseProperty h "code")
           then calls_of (onError callback)
                  [ArgVal (Header.getResponseProperty h "code");
                   ArgVal (Header.getResponseProperty h "message")]
           else calls_of (onSuccess callback) [ArgJson data])
          ++ calls_of (onEnd callback) [])%list.
Proof.
  intros Hreg Hh.
  destruct c as [rc rh rsh mp u rt rl sock rsc]; simpl in Hreg, Hh; subst rc rsh.
  unfold asyncSend_listener, getResponseProperty, registry_delete, call_if_function.
  unfold_monad. simpl.
  destruct (Js.defined (Header.getResponseProperty h "code"));
    destruct callback as [s1 s2 s3 s4]; simpl;
    [destruct s3 | destruct s2]; destruct s4; simpl;
    eexists; split; reflexivity.
Qed.

(** A packet within the size limit whose key is in the registry: the handler
    stores the packet's header, parses the body and runs the listener. *)
Lemma onmessage_matched c reg buffer p l data r c2 t :
  requestCallback c = Some reg ->
  unPack buffer = Return p ->
  headerLength p + bodyLength p + 20 <= MAX_PAYLOAD ->
  reg !! (operator p + sequence p) = Some l ->
  JSON_parse (parsed_body p) = Some data ->
  run_listener l data (set_responseHeader (Some (header p)) c) = (r, c2, t) ->
  ws_onmessage (Blob buffer) c
  = match r with
    | Return _ =>
        (Return tt, c2,
         (UnPack buffer :: t ++ receive_log (operator p + sequence p) (parsed_body p))%list)
    | Throw e =>
        (Throw (MkError "Error" (error_to_string e)), c2,
         (UnPack buffer :: t ++ [Console "info" [error_to_string e]])%list)
    end.
Proof.
  intros Hreg Hun Hsize Hl Hparse Hrun.
  unfold ws_onmessage, onload_body, registry. unfold_monad.
  rewrite Hun.
  destruct (Z.ltb_spec MAX_PAYLOAD (headerLength p + bodyLength p + 20)); [lia|].
  rewrite Hreg, Hl. fold (parsed_body p). rewrite Hparse, Hrun.
  destruct r as [[]|e]; simpl.
  - unfold receive_log.
    destruct (negb (operator p + sequence p =? 0)%Z && negb (String.eqb (parsed_body p) "null"));
      simpl; rewrite ?app_nil_r; reflexivity.
  - reflexivity.
Qed.

(** A packet within the size limit whose key is not in the registry is
    dropped: no function is called and the client is unchanged. *)
Lemma onmessage_unmatched c reg buffer p :
  requestCallback c = Some reg ->
  unPack buffer = Return p ->
  headerLength p + bodyLength p + 20 <= MAX_PAYLOAD ->
  reg !! (operator p + sequence p) = None ->
  ws_onmessage (Blob buffer) c
  = (Return tt, c, UnPack buffer :: receive_log (operator p + sequence p) (body p)).
Proof.
  intros Hreg Hun Hsize Hl.
  unfold ws_onmessage, onload_body, registry. unfold_monad.
  rewrite Hun.
  destruct (Z.ltb_spec MAX_PAYLOAD (headerLength p + bodyLength p + 20)); [lia|].
  rewrite Hreg, Hl. simpl. unfold receive_log.
  destruct (negb (operator p + sequence p =? 0)%Z && negb (String.eqb (body p) "null"));
    reflexivity.
Qed.

(** A packet over the limit: the handler has already unpacked it when it
    throws. *)
Lemma onmessage_oversized c buffer p :
  unPack buffer = Return p ->
  MAX_PAYLOAD < headerLength p + bodyLength p + 20 ->
  ws_onmessage (Blob buffer) c
  = (Throw (MkError "Error" "Error: the packet is big than 1048576"), c,
     [UnPack buffer; Console "info" ["Error: the packet is big than 1048576"]]).
Proof.
  intros Hun Hsize.
  unfold ws_onmessage, onload_body. unfold_monad.
  rewrite Hun.
  destruct (Z.ltb_spec MAX_PAYLOAD (headerLength p + bodyLength p + 20)); [|lia].
  reflexivity.
Qed.

(** [asyncSend] on an open client that has a registry. *)
Lemma asyncSend_registers c reg operator param callback now :
  requestCallback c = Some reg ->
  readyState (socket c) = OPEN ->
  let key := crc32 operator + now in
  exists t,
    asyncSend operator param (Object callback) now c
    = (Return tt,
       set_requestCallback (Some (<[key := AsyncSendListener callback key]> reg)) c, t)
    /\ invocations t = calls_of (onStart callback) []
    /\ frames_sent t
       = [pack (crc32 operator) now (from_option Js.Str Js.Undefined (requestHeader c))
               (JSON_stringify param)].
Proof.
  intros Hreg Hopen key.
  destruct c as [rc rh rsh mp u rt rl sock rsc]; simpl in Hreg, Hopen; subst rc.
  unfold asyncSend, registry_set, call_if_function, send, not_open.
  unfold_monad. simpl. rewrite Hopen. simpl.
  destruct (onStart callback); simpl; rewrite Hopen; simpl;
    eexists; (split; [reflexivity|split; reflexivity]).
Qed.

(** [ping] on an open client that has a registry: the listener goes under
    the hash of 0 and the frame carries operator 0 and sequence 0. *)
Lemma ping_registers c reg param callback :
  requestCallback c = Some reg ->
  readyState (socket c) = OPEN ->
  ping param callback c
  = (Return tt,
     set_requestCallback (Some (<[crc32 (OpNumber 0) := PingListener callback]> reg)) c,
     [SocketSend (pack 0 0 (from_option Js.Str Js.Undefined (requestHeader c))
                       (JSON_stringify param))]).
Proof.
  intros Hreg Hopen.
  destruct c as [rc rh rsh mp u rt rl sock rsc]; simpl in Hreg, Hopen; subst rc.
  unfold ping, addMessageListener, registry_set, send, not_open.
  unfold_monad. simpl. rewrite Hopen. simpl. rewrite Hopen. reflexivity.
Qed.


(** C4. A client fresh from the constructor has no registry and no request
    header: [requestCallback] and [requestHeader] are [undefined]. Once its
    socket is open, a first [asyncSend] or [ping] throws a TypeError when it
    stores the listener, and no frame is written; [setRequestProperty] and
    [getRequestProperty] throw a TypeError when they split the header, on the
    open client as on the one just built. *)
Theorem fresh_client_throws_TypeError url rsc operator param callback now key value :
  let fresh := constructor url rsc in
  let opened := client (step (start fresh) SocketOpen) in
  requestCallback fresh = None /\ requestHeader fresh = None
  /\ readyState (socket opened) = OPEN
  /\ (exists t,
        asyncSend operator param (Object callback) now opened
        = (Throw (TypeError "Cannot set properties of undefined"), opened, t)
        /\ frames_sent t = [])
  /\ ping param callback opened
     = (Throw (TypeError "Cannot set properties of undefined"), opened, [])
  /\ setRequestProperty key value opened
     = (Throw (TypeError "Cannot read properties of undefined (reading 'split')"), opened, [])
  /\ getRequestProperty key opened
     = (Throw (TypeError "Cannot read properties of undefined (reading 'split')"), opened, [])
  /\ setRequestProperty key value fresh
     = (Throw (TypeError "Cannot read properties of undefined (reading 'split')"), fresh, [])
  /\ getRequestProperty key fresh
     = (Throw (TypeError "Cannot read properties of undefined (reading 'split')"), fresh, []).
Proof.
  destruct rsc as [o1 o2 o3].
  assert (Hopened :
    client (step (start (constructor url (MkReadyStateCallback o1 o2 o3))) SocketOpen)
    = MkClient None None None MAX_PAYLOAD url (Js.Int 0) FlagUndefined
               (MkWebSocket url OPEN) (MkReadyStateCallback o1 o2 o3)).
  { unfold step, run_handler, ws_onopen, call_if_function. unfold_monad. simpl.
    destruct o1; reflexivity. }
  cbv zeta. rewrite Hopened.
  repeat split.
  - unfold asyncSend, registry_set, call_if_function. unfold_monad. simpl.
    destruct (onStart callback); simpl; eexists; split; reflexivity.
Qed.

(** C2, as amended. On a client whose maximum payload is the default, a
    buffer that [unPack] decodes to a packet with
    [headerLength + bodyLength + 20] above that maximum makes the message
    handler throw a plain [Error] saying the packet is too big; no listener
    runs and the client is unchanged. The handler has then already called
    [unPack] on the whole buffer: decoding comes first, the size check
    second. *)
Theorem oversized_packet_rejected_after_unpacking c buffer p :
  maxPayload c = MAX_PAYLOAD ->
  unPack buffer = Return p ->
  maxPayload c < headerLength p + bodyLength p + 20 ->
  exists t,
    ws_onmessage (Blob buffer) c
    = (Throw (MkError "Error" "Error: the packet is big than 1048576"), c, t)
    /\ head t = Some (UnPack buffer)
    /\ invocations t = [].
Proof.
  intros Hmax Hun Hsize. rewrite Hmax in Hsize.
  rewrite (onmessage_oversized c buffer p Hun Hsize).
  eexists. split; [reflexivity|]. split; reflexivity.
Qed.

(** C3, as amended. On a client with a registry and an open socket, a call
    sent with [asyncSend] under an operator at time [now], with a callback
    whose [onSuccess], [onError] and [onEnd] are its own properties and
    functions, is registered under [crc32 operator + now]. When a packet with
    that operator code and that sequence arrives, within the size limit and
    with a body that parses, exactly one of [onSuccess] and [onError] is
    called, then [onEnd] once, and the entry is deleted; the same packet
    arriving again calls nothing. *)
Theorem one_shot_delivered_once c reg operator_name param callback now
    buffer p data fS fE fN :
  requestCallback c = Some reg ->
  readyState (socket c) = OPEN ->
  onSuccess callback = Function fS ->
  onError callback = Function fE ->
  onEnd callback = Function fN ->
  unPack buffer = Return p ->
  operator p = crc32 operator_name ->
  sequence p = now ->
  headerLength p + bodyLength p + 20 <= MAX_PAYLOAD ->
  JSON_parse (parsed_body p) = Some data ->
  exists c1 t1 c2 t2 t3 first,
    asyncSend operator_name param (Object callback) now c = (Return tt, c1, t1)
    /\ ws_onmessage (Blob buffer) c1 = (Return tt, c2, t2)
    /\ invocations t2 = [first; (fN, [])]
    /\ (first = (fS, [ArgJson data])
        \/ exists code message, first = (fE, [ArgVal code; ArgVal message]))
    /\ (exists reg2, requestCallback c2 = Some reg2
                     /\ reg2 !! (crc32 operator_name + now) = None)
    /\ ws_onmessage (Blob buffer) c2 = (Return tt, c2, t3)
    /\ invocations t3 = [].
Proof.
  intros Hreg Hopen HS HE HN Hun Hop Hseq Hsize Hparse.
  destruct (asyncSend_registers c reg operator_name param callback now Hreg Hopen)
    as (t1 & Hsend & _ & _).
  set (key := crc32 operator_name + now) in *.
  set (reg1 := <[key := AsyncSendListener callback key]> reg) in *.
  set (c1 := set_requestCallback (Some reg1) c) in *.
  assert (Hkey : operator p + sequence p = key) by (unfold key; congruence).
  destruct (asyncSend_listener_runs callback key data
              (set_responseHeader (Some (header p)) c1) reg1 (header p))
    as (t & Hrun & Hcalls); [destruct c; reflexivity .. |].
  set (c2 := set_requestCallback (Some (delete key reg1))
               (set_responseHeader (Some (header p)) c1)) in *.
  assert (Hmsg := onmessage_matched c1 reg1 buffer p (AsyncSendListener callback key)
                    data (Return tt) c2 t).
  rewrite Hkey in Hmsg.
  specialize (Hmsg ltac:(destruct c; reflexivity) Hun Hsize
                   ltac:(apply lookup_insert_eq) Hparse Hrun).
  assert (Hmsg2 := onmessage_unmatched c2 (delete key reg1) buffer p).
  rewrite Hkey in Hmsg2.
  specialize (Hmsg2 ltac:(destruct c; reflexivity) Hun Hsize
                    ltac:(apply lookup_delete_eq)).
  rewrite HE, HS, HN in Hcalls. simpl in Hcalls.
  assert (Hfirst : exists first,
             invocations t = [first; (fN, [])]
             /\ (first = (fS, [ArgJson data])
                 \/ exists code message, first = (fE, [ArgVal code; ArgVal message]))).
  { destruct (Js.defined (Header.getResponseProperty (header p) "code"));
      simpl in Hcalls; eauto 6. }
  destruct Hfirst as (first & Hinv & Hwhich).
  exists c1, t1, c2, (UnPack buffer :: t ++ receive_log key (parsed_body p))%list,
         (UnPack buffer :: receive_log key (body p)), first.
  split; [exact Hsend|]. split; [exact Hmsg|].
  split.
  { simpl. rewrite invocations_app, invocations_receive_log, app_nil_r. exact Hinv. }
  split; [exact Hwhich|].
  split.
  { exists (delete key reg1). split; [destruct c; reflexivity | apply lookup_delete_eq]. }
  split; [exact Hmsg2|].
  simpl. apply invocations_receive_log.
Qed.

(** C1, as amended. Take a packet within the size limit whose body parses
    and which is matched to a listener that [asyncSend] registered. One of
    the two branches is taken: the calls made are those of the error branch
    ([onError], then [onEnd]) or those of the success branch ([onSuccess]
    with the parsed body, then [onEnd]), where a function is called only when
    it is the callback's own property and a function ([calls_of]). When the
    packet's header is a well-formed token list with a [code] token, it is
    the error branch: [onError] is handed that code ([carries_code], which
    leaves open whether as the text or as a number) and the text of the
    [message] token as it stands in the header, undecoded (the empty text
    when there is no [message] token); [onSuccess] is not called, and [onEnd]
    follows. *)
Theorem response_with_code_calls_onError c reg buffer p callback key data :
  requestCallback c = Some reg ->
  unPack buffer = Return p ->
  headerLength p + bodyLength p + 20 <= MAX_PAYLOAD ->
  operator p + sequence p = key ->
  reg !! key = Some (AsyncSendListener callback key) ->
  JSON_parse (parsed_body p) = Some data ->
  exists c2 t,
    ws_onmessage (Blob buffer) c = (Return tt, c2, t)
    /\ ((exists code message,
           invocations t
           = (calls_of (onError callback) [code; ArgVal message]
              ++ calls_of (onEnd callback) [])%list)
        \/ invocations t
           = (calls_of (onSuccess callback) [ArgJson data]
              ++ calls_of (onEnd callback) [])%list)
    /\ forall kvs code,
         header p = Header.encode kvs ->
         Header.well_formed kvs = true ->
         Header.lookup "code" kvs = Some code ->
         exists a,
           carries_code code a
           /\ invocations t
              = (calls_of (onError callback)
                   [a; ArgVal (Js.Str (default EmptyString (Header.lookup "message" kvs)))]
                 ++ calls_of (onEnd callback) [])%list.
Proof.
  intros Hreg Hun Hsize Hkey Hl Hparse.
  destruct (asyncSend_listener_runs callback key data
              (set_responseHeader (Some (header p)) c) reg (header p))
    as (t & Hrun & Hcalls); [destruct c; simpl in *; congruence | destruct c; reflexivity |].
  assert (Hmsg := onmessage_matched c reg buffer p (AsyncSendListener callback key)
                    data (Return tt)
                    (set_requestCallback (Some (delete key reg))
                       (set_responseHeader (Some (header p)) c))
                    t Hreg Hun Hsize).
  rewrite Hkey in Hmsg. specialize (Hmsg Hl Hparse Hrun).
  eexists _, _. split; [exact Hmsg|].
  assert (Hinv : forall rest, invocations (UnPack buffer :: t ++ receive_log key rest)%list
                              = invocations t).
  { intros rest. simpl. rewrite invocations_app, invocations_receive_log, app_nil_r.
    reflexivity. }
  rewrite Hinv, Hcalls. split.
  - destruct (Js.defined (Header.getResponseProperty (header p) "code")); eauto.
  - intros kvs code Hh Hwf Hcode. rewrite Hh.
    rewrite !(HeaderFacts.getResponseProperty_encode _ kvs Hwf) by discriminate.
    rewrite Hcode. exists (ArgVal (Js.Str code)). split; [left|]; reflexivity.
Qed.


(** For a well-formed header the success branch of the [asyncSend] closure
    is never taken, with or without a [code] token: [onError] receives the
    two texts, each empty when its token is missing. *)
Lemma well_formed_header_calls_onError c reg buffer p callback key data kvs :
  requestCallback c = Some reg ->
  unPack buffer = Return p ->
  headerLength p + bodyLength p + 20 <= MAX_PAYLOAD ->
  operator p + sequence p = key ->
  reg !! key = Some (AsyncSendListener callback key) ->
  JSON_parse (parsed_body p) = Some data ->
  header p = Header.encode kvs ->
  Header.well_formed kvs = true ->
  invocations (trace_of (ws_onmessage (Blob buffer) c))
  = (calls_of (onError callback)
       [ArgVal (Js.Str (default EmptyString (Header.lookup "code" kvs)));
        ArgVal (Js.Str (default EmptyString (Header.lookup "message" kvs)))]
     ++ calls_of (onEnd callback) [])%list.
Proof.
  intros Hreg Hun Hsize Hkey Hl Hparse Hh Hwf.
  destruct (asyncSend_listener_runs callback key data
              (set_responseHeader (Some (header p)) c) reg (header p))
    as (t & Hrun & Hcalls); [destruct c; simpl in *; congruence | destruct c; reflexivity |].
  assert (Hmsg := onmessage_matched c reg buffer p (AsyncSendListener callback key)
                    data (Return tt)
                    (set_requestCallback (Some (delete key reg))
                       (set_responseHeader (Some (header p)) c))
                    t Hreg Hun Hsize).
  rewrite Hkey in Hmsg. specialize (Hmsg Hl Hparse Hrun).
  rewrite Hmsg. unfold trace_of. simpl.
  rewrite invocations_app, invocations_receive_log, app_nil_r, Hcalls, Hh.
  rewrite (HeaderFacts.code_is_always_defined kvs Hwf).
  rewrite !(HeaderFacts.getResponseProperty_encode _ kvs Hwf) by discriminate.
  reflexivity.
Qed.

(** The closure of [ping] throws a TypeError whenever the callback object
    has no function [onEnd], whatever the header says. *)
Lemma ping_listener_needs_onEnd callback data c h :
  responseHeader c = Some h ->
  callable (onEnd callback) = false ->
  exists e, completion_of (ping_listener callback data c) = Throw e
            /\ name e = "TypeError".
Proof.
  intros Hh Hend.
  destruct c as [rc rh rsh mp u rt rl sock rsc]; simpl in Hh; subst rsh.
  unfold ping_listener, getResponseProperty, call_if_not_null, call, completion_of.
  unfold_monad. simpl.
  destruct callback as [s1 s2 s3 s4]; simpl in *.
  destruct (Js.defined (Header.getResponseProperty h "code"));
    [destruct s3 | destruct s2]; simpl;
    destruct s4; simpl; try discriminate Hend; eauto.
Qed.

(** The message handler never reads [maxPayload]: whatever value the field
    holds, the handler does the same. *)
Lemma onmessage_ignores_maxPayload m data c :
  ws_onmessage data (set_maxPayload m c)
  = (completion_of (ws_onmessage data c),
     set_maxPayload m (client_of (ws_onmessage data c)),
     trace_of (ws_onmessage data c)).
Proof.
  destruct c as [rc rh rsh mp u rt rl sock rsc].
  destruct data as [buffer|s]; [|reflexivity].
  unfold ws_onmessage, onload_body, registry, run_listener, asyncSend_listener,
    ping_listener, getResponseProperty, registry_delete, call_if_function,
    call_if_not_null, call, completion_of, client_of, trace_of, set_maxPayload.
  unfold_monad. simpl.
  repeat (split_match; simpl; try reflexivity).
Qed.

(** ** Reconnecting *)

Lemma linear_delays_succ n :
  linear_delays (S n) = (linear_delays n ++ [Js.Int (Z.of_nat n * 1000)])%list.
Proof. unfold linear_delays. rewrite seq_S, map_app. reflexivity. Qed.

Lemma linear_delays_length n : List.length (linear_delays n) = n.
Proof. unfold linear_delays. rewrite length_map, length_seq. reflexivity. Qed.

(** [reconnect] while an attempt is in flight does nothing. *)
Lemma reconnect_locked c :
  reconnectLock c = FlagBool true -> reconnect c = (Return tt, c, []).
Proof.
  intros Hlock. unfold reconnect. unfold_monad. rewrite Hlock. reflexivity.
Qed.

(** Each event acts on the reconnect state as [Backoff.step] says. *)
Lemma view_step w i :
  is_message i = false -> view (step w i) = Backoff.step (view w) i.
Proof.
  destruct w as [c pend done].
  destruct c as [rc rh rsh mp u rt rl sock [o1 o2 o3]].
  destruct i; intros Hi; try discriminate Hi.
  - unfold step, run_handler, ws_onopen, call_if_function, view. unfold_monad. simpl.
    destruct o1; simpl; rewrite timeouts_app, ?app_nil_r; simpl;
      rewrite ?app_nil_r; reflexivity.
  - unfold step, run_handler, ws_onclose, reconnect, call_if_function, view,
      Backoff.step, Backoff.trigger.
    unfold_monad. simpl.
    destruct (flag_not rl); simpl; destruct o2; simpl;
      rewrite timeouts_app, ?app_nil_r; simpl; rewrite ?app_nil_r; reflexivity.
  - unfold step, run_handler, ws_onerror, reconnect, call_if_function, view,
      Backoff.step, Backoff.trigger.
    unfold_monad. simpl.
    destruct (flag_not rl); simpl; destruct o3; simpl;
      rewrite timeouts_app, ?app_nil_r; simpl; rewrite ?app_nil_r; reflexivity.
  - unfold step, view, Backoff.step. simpl.
    destruct pend as [|d pend]; [reflexivity|].
    unfold run_handler, reconnect_timer. unfold_monad. simpl.
    rewrite !app_nil_r. reflexivity.
Qed.

Lemma view_steps events : forall w,
  forallb reconnect_only events = true ->
  view (steps w events) = fold_left Backoff.step events (view w).
Proof.
  induction events as [|i events IH]; intros w Hev; [reflexivity|].
  simpl in Hev. apply andb_true_iff in Hev as [Hi Hev].
  unfold steps in *. simpl. rewrite (IH _ Hev), view_step; [reflexivity|].
  destruct i; try discriminate Hi; reflexivity.
Qed.

Lemma invariant_step v i :
  reconnect_only i = true -> Backoff.invariant v -> Backoff.invariant (Backoff.step v i).
Proof.
  intros Hi (n & Htimes & Hcase).
  destruct v as [t l pend sched]. simpl in *. subst t.
  assert (Htrigger : Backoff.invariant
                       (Backoff.trigger (Backoff.MkView (Js.Int (Z.of_nat n)) l pend sched))).
  { unfold Backoff.trigger. simpl.
    destruct Hcase as [(Hl & Hp & Hs) | (Hl & Hp & Hs)].
    - rewrite Hl. exists n. split; [reflexivity|]. right. subst pend sched.
      simpl. rewrite linear_delays_succ. auto.
    - subst l. simpl. exists n. split; [reflexivity|]. right. auto. }
  destruct i; try discriminate Hi; simpl; try exact Htrigger.
  destruct Hcase as [(Hl & Hp & Hs) | (Hl & Hp & Hs)]; subst pend.
  - exists n. split; [reflexivity|]. left. auto.
  - exists (S n). split; [simpl; f_equal; lia|]. left. auto.
Qed.

Lemma invariant_steps events : forall v,
  forallb reconnect_only events = true ->
  Backoff.invariant v -> Backoff.invariant (fold_left Backoff.step events v).
Proof.
  induction events as [|i events IH]; intros v Hev Hv; [exact Hv|].
  simpl in Hev. apply andb_true_iff in Hev as [Hi Hev].
  simpl. apply IH; [exact Hev|]. apply invariant_step; assumption.
Qed.

(** [N] rounds of close and timer, from a state with [n] attempts issued and
    nothing pending, schedule the delays [n], ..., [n + N - 1] seconds. *)
Lemma close_rounds_view N : forall n l sched,
  flag_not l = true ->
  fold_left Backoff.step (close_rounds N)
            (Backoff.MkView (Js.Int (Z.of_nat n)) l [] sched)
  = Backoff.MkView (Js.Int (Z.of_nat (n + N)))
      (match N with O => l | S _ => FlagBool false end) []
      (sched ++ map (fun i => Js.Int (Z.of_nat i * 1000)) (seq n N))%list.
Proof.
  induction N as [|N IH]; intros n l sched Hl.
  - simpl. rewrite app_nil_r, Nat.add_0_r. reflexivity.
  - simpl. unfold Backoff.trigger. simpl. rewrite Hl. simpl.
    replace (Z.of_nat n + 1) with (Z.of_nat (S n)) by lia.
    rewrite (IH (S n) (FlagBool false) _ eq_refl).
    rewrite <- app_assoc. simpl.
    f_equal; [f_equal; lia | destruct N; reflexivity].
Qed.

Lemma close_rounds_reconnect_only N : forallb reconnect_only (close_rounds N) = true.
Proof. induction N as [|N IH]; [reflexivity | exact IH]. Qed.

(** X26. Reconnecting once the counter is a number. Count from a client whose
    counter is 0 and that has no reconnect in flight, as after a successful
    open, and let the socket close or fail and the timers fire in any order.
    The attempts are scheduled with the delays 0, 1, 2, ... seconds: attempt
    number N waits N - 1 seconds. At most one attempt is pending at any time,
    and the counter is the number of attempts issued so far, those scheduled
    less the pending one. N closes, each followed by its timer, schedule N
    attempts. An open resets the counter to 0. While the lock is set,
    [reconnect] does nothing and a close or an error starts no second
    timer. *)
Theorem backoff_is_linear_after_open c events :
  reconnectTimes c = Js.Int 0 ->
  flag_not (reconnectLock c) = true ->
  forallb reconnect_only events = true ->
  let w := steps (start c) events in
  let attempts := timeouts (log w) in
  attempts = linear_delays (List.length attempts)
  /\ (List.length (timers w) <= 1)%nat
  /\ reconnectTimes (client w)
     = Js.Int (Z.of_nat (List.length attempts - List.length (timers w)))
  /\ (forall N, timeouts (log (steps (start c) (close_rounds N))) = linear_delays N)
  /\ reconnectTimes (client (step w SocketOpen)) = Js.Int 0
  /\ (reconnectLock (client w) = FlagBool true ->
      reconnect (client w) = (Return tt, client w, [])
      /\ timers (step w SocketClose) = timers w
      /\ timers (step w SocketError) = timers w).
Proof.
  intros Htimes Hlock Hev w attempts.
  assert (Hstart : Backoff.invariant (view (start c))).
  { exists 0%nat. split; [exact Htimes|]. left. auto. }
  assert (Hinv : Backoff.invariant (view w)).
  { unfold w. rewrite (view_steps events _ Hev). apply invariant_steps; assumption. }
  destruct Hinv as (n & Ht & Hcase).
  change (Backoff.times (view w)) with (reconnectTimes (client w)) in Ht.
  change (Backoff.lock (view w)) with (reconnectLock (client w)) in Hcase.
  change (Backoff.pending (view w)) with (timers w) in Hcase.
  change (Backoff.scheduled (view w)) with attempts in Hcase.
  split; [|split; [|split; [|split; [|split]]]].
  - destruct Hcase as [(_ & _ & Hs) | (_ & _ & Hs)];
      rewrite Hs at 2; rewrite linear_delays_length; exact Hs.
  - destruct Hcase as [(_ & Hp & _) | (_ & Hp & _)]; rewrite Hp; simpl; lia.
  - rewrite Ht. f_equal. f_equal.
    destruct Hcase as [(_ & Hp & Hs) | (_ & Hp & Hs)];
      rewrite Hp, Hs, linear_delays_length; simpl; lia.
  - intros N.
    change (timeouts (log (steps (start c) (close_rounds N))))
      with (Backoff.scheduled (view (steps (start c) (close_rounds N)))).
    rewrite (view_steps _ _ (close_rounds_reconnect_only N)).
    unfold view, start. simpl. rewrite Htimes.
    pose proof (close_rounds_view N 0 (reconnectLock c) [] Hlock) as Hrounds.
    change (Z.of_nat 0) with 0 in Hrounds. rewrite Hrounds. reflexivity.
  - change (reconnectTimes (client (step w SocketOpen)))
      with (Backoff.times (view (step w SocketOpen))).
    rewrite view_step by reflexivity. reflexivity.
  - intros Hlocked. split; [apply reconnect_locked, Hlocked|].
    split.
    + change (timers (step w SocketClose))
        with (Backoff.pending (view (step w SocketClose))).
      rewrite view_step by reflexivity. simpl. unfold Backoff.trigger. simpl.
      rewrite Hlocked. reflexivity.
    + change (timers (step w SocketError))
        with (Backoff.pending (view (step w SocketError))).
      rewrite view_step by reflexivity. simpl. unfold Backoff.trigger. simpl.
      rewrite Hlocked. reflexivity.
Qed.

(** A counter that is not a number stays so: [N] rounds of close and timer
    schedule [N] delays that are not numbers. *)
Lemma close_rounds_view_unset N : forall t l sched,
  Js.times t 1000 = Js.NaN ->
  flag_not l = true ->
  Backoff.scheduled
    (fold_left Backoff.step (close_rounds N) (Backoff.MkView t l [] sched))
  = (sched ++ repeat Js.NaN N)%list.
Proof.
  induction N as [|N IH]; intros t l sched Ht Hl.
  - simpl. rewrite app_nil_r. reflexivity.
  - simpl. unfold Backoff.trigger. simpl. rewrite Hl, Ht. simpl.
    rewrite (IH (Js.incr t) (FlagBool false)).
    + rewrite <- app_assoc. reflexivity.
    + destruct t; [reflexivity | reflexivity | discriminate Ht].
    + reflexivity.
Qed.

(** C5. The constructor leaves the counter [reconnectTimes] unassigned. When
    the socket of a client just built closes two times or more before it has
    ever been open, each close followed by its timer, every attempt is
    scheduled with [undefined * 1000], which is not a number and which
    [setTimeout] takes as no delay. The second attempt is scheduled so, where
    linear backoff gives it one second. *)
Theorem backoff_lost_before_first_open url rsc N :
  let fresh := constructor url rsc in
  let w := steps (start fresh) (close_rounds (2 + N)) in
  reconnectTimes fresh = Js.NumUndefined
  /\ timeouts (log w) = repeat Js.NaN (2 + N)
  /\ nth_error (timeouts (log w)) 1 = Some Js.NaN
  /\ nth_error (linear_delays (2 + N)) 1 = Some (Js.Int 1000).
Proof.
  cbv zeta.
  assert (Hdelays :
    timeouts (log (steps (start (constructor url rsc)) (close_rounds (2 + N))))
    = repeat Js.NaN (2 + N)).
  { change (timeouts (log (steps (start (constructor url rsc)) (close_rounds (2 + N)))))
      with (Backoff.scheduled
              (view (steps (start (constructor url rsc)) (close_rounds (2 + N))))).
    rewrite (view_steps _ _ (close_rounds_reconnect_only (2 + N))).
    unfold view, start, constructor. simpl log. simpl timers. simpl client.
    simpl reconnectTimes. simpl reconnectLock. simpl timeouts.
    rewrite (close_rounds_view_unset (2 + N) Js.NumUndefined FlagUndefined []); reflexivity. }
  split; [reflexivity|]. split; [exact Hdelays|].
  rewrite Hdelays. split; reflexivity.
Qed.

End Proofs.

(** ** The theorems at explicit inputs *)

Lemma awaiting_echo_is_after_asyncSend :
  client_of (asyncSend (ext := Sample.characters) (OpName "echo") JNull
               (Object Sample.hooks) Sample.now Sample.idle)
  = Sample.awaiting_echo.
Proof. vm_compute. reflexivity. Qed.

Lemma oversized_packet_rejected_after_unpacking_witness :
  exists t,
    ws_onmessage (ext := Sample.lenient) (Blob Sample.truncated_frame) Sample.idle
    = (Throw (MkError "Error" "Error: the packet is big than 1048576"), Sample.idle, t)
    /\ head t = Some (UnPack Sample.truncated_frame)
    /\ invocations t = [].
Proof.
  apply (oversized_packet_rejected_after_unpacking (ext := Sample.lenient)
           Sample.idle Sample.truncated_frame
           (MkPacket 1 0 1048576 0 EmptyString EmptyString)).
  - reflexivity.
  - vm_compute. reflexivity.
  - vm_compute. reflexivity.
Defined.

(** C2 fails as stated. The preamble of a frame that declares 1 MiB of
    header is over the limit by what it declares. The handler first hands
    the buffer to [unPack]: with the strict decoder it is the decoder's error
    that comes out, not the size error; with the lenient one the size error
    comes out after the decoder has run. *)
Lemma size_check_before_decoding_counterexample :
  MAX_PAYLOAD
  < Wire.read_unsigned (Wire.slice 12 4 Sample.truncated_frame)
    + Wire.read_unsigned (Wire.slice 16 4 Sample.truncated_frame) + 20
  /\ ws_onmessage (ext := Sample.characters) (Blob Sample.truncated_frame) Sample.idle
     = (Throw (MkError "Error" "RangeError: Offset is outside the bounds of the DataView"),
        Sample.idle,
        [UnPack Sample.truncated_frame;
         Console "info" ["RangeError: Offset is outside the bounds of the DataView"]])
  /\ ws_onmessage (ext := Sample.lenient) (Blob Sample.truncated_frame) Sample.idle
     = (Throw (MkError "Error" "Error: the packet is big than 1048576"),
        Sample.idle,
        [UnPack Sample.truncated_frame;
         Console "info" ["Error: the packet is big than 1048576"]]).
Proof. split; [|split]; vm_compute; reflexivity. Qed.

(** C3 fails as stated. With a callback object that has none of the
    functions, the call is registered and its reply is matched, but nothing
    is called: the entry is removed without [onSuccess], [onError] or
    [onEnd]. With the callback of four functions, a reply whose body is not
    JSON makes the handler throw before any function is called; the entry
    stays, and the same frame arriving again is matched again and throws
    again: it is not dropped. A reply that declares more than the size limit
    is refused before the lookup, and the entry stays. *)
Lemma one_shot_reply_counterexample :
  let sent := asyncSend (ext := Sample.characters) (OpName "echo") JNull
                (Object Sample.no_hooks) Sample.now Sample.idle in
  let reply := Blob (Sample.echo_reply EmptyString "{}") in
  let text_reply := Blob (Sample.echo_reply EmptyString "oops") in
  let failed := ws_onmessage (ext := Sample.characters) text_reply Sample.awaiting_echo in
  let big_reply := Blob (Scene.oversized (Crc.of_string "echo") Sample.now) in
  completion_of sent = Return tt
  /\ client_of sent = Scene.awaiting Sample.no_hooks
  /\ ws_onmessage (ext := Sample.characters) reply (client_of sent)
     = (Return tt, Sample.idle,
        [UnPack (Sample.echo_reply EmptyString "{}"); Console "info" ["receive data"; "{}"]])
  /\ failed
     = (Throw (MkError "Error" "SyntaxError: Unexpected token in JSON"),
        Sample.awaiting_echo,
        [UnPack (Sample.echo_reply EmptyString "oops");
         Console "info" ["SyntaxError: Unexpected token in JSON"]])
  /\ requestCallback (client_of failed)
     = Some {[ Sample.echo_key := AsyncSendListener Sample.hooks Sample.echo_key ]}
  /\ ws_onmessage (ext := Sample.characters) text_reply (client_of failed) = failed
  /\ ws_onmessage (ext := Sample.lenient) big_reply Sample.awaiting_echo
     = (Throw (MkError "Error" "Error: the packet is big than 1048576"),
        Sample.awaiting_echo,
        [UnPack (Scene.oversized (Crc.of_string "echo") Sample.now);
         Console "info" ["Error: the packet is big than 1048576"]]).
Proof. repeat split; vm_compute; reflexivity. Qed.

Lemma one_shot_delivered_once_witness :
  exists c1 t1 c2 t2 t3 first,
    asyncSend (ext := Sample.characters) (OpName "echo") JNull (Object Sample.hooks)
      Sample.now Sample.idle = (Return tt, c1, t1)
    /\ ws_onmessage (ext := Sample.characters)
         (Blob (Sample.echo_reply EmptyString "{}")) c1 = (Return tt, c2, t2)
    /\ invocations t2 = [first; ("onEnd", [])]
    /\ (first = ("onSuccess", [ArgJson (JObject [])])
        \/ exists code message, first = ("onError", [ArgVal code; ArgVal message]))
    /\ (exists reg2, requestCallback c2 = Some reg2
                     /\ reg2 !! (Crc.of_characters (OpName "echo") + Sample.now) = None)
    /\ ws_onmessage (ext := Sample.characters)
         (Blob (Sample.echo_reply EmptyString "{}")) c2 = (Return tt, c2, t3)
    /\ invocations t3 = [].
Proof.
  apply (one_shot_delivered_once (ext := Sample.characters)
           Sample.idle ∅ (OpName "echo") JNull Sample.hooks Sample.now
           (Sample.echo_reply EmptyString "{}")
           (MkPacket (Crc.of_string "echo") Sample.now 0 2 EmptyString "{}")
           (JObject []) "onSuccess" "onError" "onEnd").
  - reflexivity.
  - reflexivity.
  - reflexivity.
  - reflexivity.
  - reflexivity.
  - vm_compute. reflexivity.
  - reflexivity.
  - reflexivity.
  - simpl. unfold MAX_PAYLOAD. lia.
  - reflexivity.
Defined.

Lemma response_with_code_calls_onError_witness :
  exists c2 t,
    ws_onmessage (ext := Sample.characters)
      (Blob (Sample.echo_reply "code=404;message=not+found;" EmptyString))
      Sample.awaiting_echo = (Return tt, c2, t)
    /\ ((exists code message,
           invocations t
           = (calls_of (onError Sample.hooks) [code; ArgVal message]
              ++ calls_of (onEnd Sample.hooks) [])%list)
        \/ invocations t
           = (calls_of (onSuccess Sample.hooks) [ArgJson (JObject [])]
              ++ calls_of (onEnd Sample.hooks) [])%list)
    /\ forall kvs code,
         "code=404;message=not+found;" = Header.encode kvs ->
         Header.well_formed kvs = true ->
         Header.lookup "code" kvs = Some code ->
         exists a,
           carries_code code a
           /\ invocations t
              = (calls_of (onError Sample.hooks)
                   [a; ArgVal (Js.Str (default EmptyString (Header.lookup "message" kvs)))]
                 ++ calls_of (onEnd Sample.hooks) [])%list.
Proof.
  apply (response_with_code_calls_onError (ext := Sample.characters)
           Sample.awaiting_echo
           {[ Sample.echo_key := AsyncSendListener Sample.hooks Sample.echo_key ]}
           (Sample.echo_reply "code=404;message=not+found;" EmptyString)
           (MkPacket (Crc.of_string "echo") Sample.now 27 0
                     "code=404;message=not+found;" EmptyString)
           Sample.hooks Sample.echo_key (JObject [])).
  - reflexivity.
  - vm_compute. reflexivity.
  - simpl. unfold MAX_PAYLOAD. lia.
  - reflexivity.
  - vm_compute. reflexivity.
  - reflexivity.
Defined.

(** C1 fails as stated. The header [code=404;message=not+found;] gives
    [onError] the two texts as they stand, the code as the text 404 and the
    message with its plus sign. A header without a [code] token does not
    reach [onSuccess]: [getResponseProperty] answers the empty text for a
    missing key, which is not [undefined], and [onError] is called with two
    empty texts. A matched frame whose body is not JSON takes neither branch:
    the handler throws before the listener runs. A callback whose functions
    are inherited is called on neither branch. *)
Lemma header_code_routing_counterexample :
  invocations (trace_of (ws_onmessage (ext := Sample.characters)
     (Blob (Sample.echo_reply "code=404;message=not+found;" EmptyString))
     Sample.awaiting_echo))
  = [("onError", [ArgVal (Js.Str "404"); ArgVal (Js.Str "not+found")]); ("onEnd", [])]
  /\ [("onError", [ArgVal (Js.Str "404"); ArgVal (Js.Str "not+found")]); ("onEnd", [])]
     <> [("onError", [ArgNumberOf (Js.Str "404"); ArgVal (Js.Str "not found")]);
         ("onEnd", [])]
  /\ Header.keys "a=1;" = ["a"]
  /\ invocations (trace_of (ws_onmessage (ext := Sample.characters)
        (Blob (Sample.echo_reply "a=1;" "{}")) Sample.awaiting_echo))
     = [("onError", [ArgVal (Js.Str EmptyString); ArgVal (Js.Str EmptyString)]);
        ("onEnd", [])]
  /\ ~ In ("onSuccess", [ArgJson (JObject [])])
          (invocations (trace_of (ws_onmessage (ext := Sample.characters)
             (Blob (Sample.echo_reply "a=1;" "{}")) Sample.awaiting_echo)))
  /\ ws_onmessage (ext := Sample.characters)
       (Blob (Sample.echo_reply "code=404;message=not+found;" "oops"))
       Sample.awaiting_echo
     = (Throw (MkError "Error" "SyntaxError: Unexpected token in JSON"),
        set_responseHeader (Some "code=404;message=not+found;") Sample.awaiting_echo,
        [UnPack (Sample.echo_reply "code=404;message=not+found;" "oops");
         Console "info" ["SyntaxError: Unexpected token in JSON"]])
  /\ invocations (trace_of (ws_onmessage (ext := Sample.characters)
        (Blob (Sample.echo_reply "code=404;message=not+found;" EmptyString))
        (Scene.awaiting Scene.inherited_hooks)))
     = []
  /\ invocations (trace_of (ws_onmessage (ext := Sample.characters)
        (Blob (Sample.echo_reply EmptyString "{}"))
        (Scene.awaiting Scene.inherited_hooks)))
     = [].
Proof.
  split; [vm_compute; reflexivity|].
  split; [discriminate|].
  split; [vm_compute; reflexivity|].
  split; [vm_compute; reflexivity|].
  split; [vm_compute; intros [H|[H|[]]]; discriminate H|].
  split; [vm_compute; reflexivity|].
  split; vm_compute; reflexivity.
Qed.

Lemma backoff_is_linear_after_open_witness :
  let w := steps (ext := Sample.characters) (start Sample.idle)
             (close_rounds 3 ++ [SocketError; SocketClose])%list in
  let attempts := timeouts (log w) in
  attempts = linear_delays (List.length attempts)
  /\ (List.length (timers w) <= 1)%nat
  /\ reconnectTimes (client w)
     = Js.Int (Z.of_nat (List.length attempts - List.length (timers w)))
  /\ (forall N, timeouts (log (steps (ext := Sample.characters) (start Sample.idle)
                                 (close_rounds N))) = linear_delays N)
  /\ reconnectTimes (client (step (ext := Sample.characters) w SocketOpen)) = Js.Int 0
  /\ (reconnectLock (client w) = FlagBool true ->
      reconnect (client w) = (Return tt, client w, [])
      /\ timers (step (ext := Sample.characters) w SocketClose) = timers w
      /\ timers (step (ext := Sample.characters) w SocketError) = timers w).
Proof.
  apply (backoff_is_linear_after_open (ext := Sample.characters) Sample.idle
           (close_rounds 3 ++ [SocketError; SocketClose])%list).
  - reflexivity.
  - reflexivity.
  - reflexivity.
Defined.

Example backoff_after_three_rounds :
  timeouts (log (steps (ext := Sample.characters) (start Sample.idle)
                   (close_rounds 3 ++ [SocketError; SocketClose])%list))
  = [Js.Int 0; Js.Int 1000; Js.Int 2000; Js.Int 3000].
Proof. vm_compute. reflexivity. Qed.

Example backoff_of_a_client_just_built :
  timeouts (log (steps (ext := Sample.characters)
                   (start (constructor "ws://host" (MkReadyStateCallback Absent Absent Absent)))
                   (close_rounds 3)))
  = [Js.NaN; Js.NaN; Js.NaN].
Proof. vm_compute. reflexivity. Qed.



(** C6. On the header [ab=1;c=2;b=1;], whose keys [ab], [c] and [b] are
    distinct and whose texts hold no separator, setting [b] twice leaves the
    first of the two values readable and two [b] tokens in the header, and
    the tokens of [ab] and [c] are gone: [replace] removes the first place
    where the text [b=1;] occurs, which is inside the token of [ab]. *)
Theorem set_twice_reads_first_value :
  let c := ready_client ∅ "ab=1;c=2;b=1;" in
  "ab=1;c=2;b=1;" = Header.encode [("ab", "1"); ("c", "2"); ("b", "1")]
  /\ Header.well_formed [("ab", "1"); ("c", "2"); ("b", "1")] = true
  /\ (setRequestProperty "b" "x";; setRequestProperty "b" "y";; getRequestProperty "b") c
     = (Return (Js.Str "x"), ready_client ∅ "ac=2;b=x;b=y;", [])
  /\ Header.keys "ac=2;b=x;b=y;" = ["ac"; "b"; "b"].
Proof. repeat split; vm_compute; reflexivity. Qed.

(** A key that is not in the header is searched as the text
    [k=undefined;]: setting [k] then changes the value of the key [xk] and
    leaves [k] unset. *)
Example set_absent_key_rewrites_other_token :
  (setRequestProperty "k" "v";; getRequestProperty "k")
    (ready_client ∅ "xk=undefined;")
  = (Return Js.Undefined, ready_client ∅ "xk=v;", []).
Proof. vm_compute. reflexivity. Qed.

(** C8. After [ping] with a callback object that has none of the four
    functions, the acknowledgement makes the listener call [onError] without
    looking whether it is there: the handler throws, reporting a TypeError.
    The same object given to [asyncSend] causes no failure. *)
Theorem ping_with_no_hooks_throws :
  let c1 := client_of (ping (ext := Sample.characters) JNull Sample.no_hooks Sample.idle) in
  let c2 := client_of (asyncSend (ext := Sample.characters) (OpName "echo") JNull
                         (Object Sample.no_hooks) Sample.now Sample.idle) in
  completion_of (ping (ext := Sample.characters) JNull Sample.no_hooks Sample.idle)
  = Return tt
  /\ completion_of (ws_onmessage (ext := Sample.characters)
                      (Blob (Sample.frame 0 0 EmptyString EmptyString)) c1)
     = Throw (MkError "Error" "TypeError: is not a function")
  /\ completion_of (ws_onmessage (ext := Sample.characters)
                      (Blob (Sample.echo_reply EmptyString EmptyString)) c2)
     = Return tt.
Proof. repeat split; vm_compute; reflexivity. Qed.

(** C9. After [setMaxPayload(24)], a frame with 4 bytes of header and 2 of
    body, 26 with the preamble, is not refused: its listener is called. The
    handler compares with the constant [MAX_PAYLOAD] and never reads the
    field that [setMaxPayload] writes. *)
Theorem max_payload_setting_is_ignored :
  let reg : gmap Z Listener := {[ 7 := UserListener "listener" ]} in
  let c := client_of (setMaxPayload 24 (ready_client reg EmptyString)) in
  let buffer := Sample.frame 7 0 "a=1;" "{}" in
  maxPayload c = 24
  /\ Wire.unPack true buffer = Return (MkPacket 7 0 4 2 "a=1;" "{}")
  /\ 24 < 4 + 2 + 20
  /\ completion_of (ws_onmessage (ext := Sample.characters) (Blob buffer) c) = Return tt
  /\ invocations (trace_of (ws_onmessage (ext := Sample.characters) (Blob buffer) c))
     = [("listener", [ArgJson (JObject [])])].
Proof. repeat split; vm_compute; reflexivity. Qed.

(** C10. A reply to an [asyncSend] call with an empty body and no [code] in
    its header: the body is parsed as the text of the empty object and the
    listener receives that object, yet it is [onError] that is called, with
    two empty texts, and [onSuccess] is not. A function registered with
    [addMessageListener] does receive the empty object. *)
Theorem empty_body_reaches_onError :
  let reply := Sample.echo_reply EmptyString EmptyString in
  let direct : gmap Z Listener := {[ Sample.echo_key := UserListener "listener" ]} in
  Wire.unPack true reply
  = Return (MkPacket (Crc.of_string "echo") Sample.now 0 0 EmptyString EmptyString)
  /\ ws_onmessage (ext := Sample.characters) (Blob reply) Sample.awaiting_echo
     = (Return tt, ready_client ∅ EmptyString,
        [UnPack reply;
         Invoke "onError" [ArgVal (Js.Str EmptyString); ArgVal (Js.Str EmptyString)];
         Invoke "onEnd" [];
         Console "info" ["receive data"; "{}"]])
  /\ invocations (trace_of (ws_onmessage (ext := Sample.characters) (Blob reply)
                              (ready_client direct EmptyString)))
     = [("listener", [ArgJson (JObject [])])].
Proof. repeat split; vm_compute; reflexivity. Qed.

(** * Further properties *)

(** ** Replacing in a text *)

Module ReplaceFacts.

Lemma replace_unfold pat rep s :
  Js.replace pat rep s
  = if String.prefix pat s
    then rep ++ substring (String.length pat) (String.length s - String.length pat) s
    else match s with
         | EmptyString => EmptyString
         | String a r => String a (Js.replace pat rep r)
         end.
Proof. destruct s; reflexivity. Qed.

Lemma prefix_append p r : String.prefix p (p ++ r) = true.
Proof.
  induction p as [|a p IH]; simpl; [destruct r; reflexivity|].
  destruct (ascii_dec a a); [exact IH | congruence].
Qed.

Lemma length_append p r :
  String.length (p ++ r) = (String.length p + String.length r)%nat.
Proof. induction p as [|a p IH]; simpl; [reflexivity | rewrite IH; reflexivity]. Qed.

Lemma substring_whole r : substring 0 (String.length r) r = r.
Proof. induction r as [|a r IH]; simpl; [reflexivity | rewrite IH; reflexivity]. Qed.

Lemma substring_after p r n :
  substring (String.length p) n (p ++ r) = substring 0 n r.
Proof. induction p as [|a p IH]; simpl; [reflexivity | exact IH]. Qed.

(** A pattern at the very start is cut off. *)
Lemma replace_at_start pat rep r : Js.replace pat rep (pat ++ r) = rep ++ r.
Proof.
  rewrite replace_unfold, prefix_append, substring_after, length_append.
  replace (String.length pat + String.length r - String.length pat)%nat
    with (String.length r) by lia.
  rewrite substring_whole. reflexivity.
Qed.

(** Without an occurrence nothing changes. *)
Lemma replace_absent pat rep s :
  Search.includes pat s = false -> Js.replace pat rep s = s.
Proof.
  induction s as [|a s IH]; intros H; rewrite replace_unfold.
  - cbn [Search.includes] in H.
    destruct (String.prefix pat EmptyString); [discriminate H | reflexivity].
  - cbn [Search.includes] in H.
    destruct (String.prefix pat (String a s)); [discriminate H|].
    rewrite (IH H). reflexivity.
Qed.

(** The first occurrence is the one replaced. *)
Lemma replace_first pat rep before rest :
  Search.clear_before pat before (pat ++ rest) = true ->
  Js.replace pat rep (before ++ pat ++ rest) = before ++ rep ++ rest.
Proof.
  induction before as [|a before IH]; intros H.
  - exact (replace_at_start pat rep rest).
  - cbn [Search.clear_before] in H. apply andb_true_iff in H as [Hhere Hlater].
    apply negb_true_iff in Hhere.
    rewrite replace_unfold, Hhere. simpl. rewrite (IH Hlater). reflexivity.
Qed.

End ReplaceFacts.

Module ClearFacts.

Lemma clear_before_app pat a b rest :
  Search.clear_before pat (a ++ b) rest
  = Search.clear_before pat a (b ++ rest) && Search.clear_before pat b rest.
Proof.
  induction a as [|x a IH]; [reflexivity|].
  cbn [Search.clear_before]. change (String x a ++ b) with (String x (a ++ b)).
  cbn [Search.clear_before]. rewrite IH, andb_assoc.
  change (String x (a ++ b) ++ rest) with (String x ((a ++ b) ++ rest)).
  change (String x a ++ b ++ rest) with (String x (a ++ b ++ rest)).
  rewrite HeaderFacts.append_assoc. reflexivity.
Qed.

Lemma prefix_cons a p b s :
  String.prefix (String a p) (String b s)
  = if ascii_dec a b then String.prefix p s else false.
Proof. reflexivity. Qed.

(** A key followed by [=] is not at the start of a different text free of
    [=] followed by [=]. *)
Lemma no_match_in_key key : forall s r1 r2,
  Header.free_of "=" key = true ->
  Header.free_of "=" s = true ->
  s <> key ->
  String.prefix (key ++ String "=" r1) (s ++ String "=" r2) = false.
Proof.
  induction key as [|a key IH]; intros s r1 r2 Hkey Hs Hne.
  - destruct s as [|x s]; [congruence|].
    simpl in Hs. apply andb_true_iff in Hs as [Hx _]. apply negb_true_iff in Hx.
    cbn [String.append]. rewrite prefix_cons.
    destruct (ascii_dec "=" x) as [E|_]; [|reflexivity].
    subst x. discriminate Hx.
  - simpl in Hkey. apply andb_true_iff in Hkey as [Ha Hkey]. apply negb_true_iff in Ha.
    destruct s as [|x s].
    + cbn [String.append]. rewrite prefix_cons.
      destruct (ascii_dec a "=") as [E|_]; [|reflexivity].
      subst a. discriminate Ha.
    + simpl in Hs. apply andb_true_iff in Hs as [_ Hs].
      cbn [String.append]. rewrite prefix_cons.
      destruct (ascii_dec a x) as [E|_]; [|reflexivity].
      subst x. apply IH; [exact Hkey | exact Hs | congruence].
Qed.

(** A key followed by [=] is not at the start of a text free of [=]
    followed by [;]. *)
Lemma no_match_in_value key : forall s r1 r2,
  Header.free_of ";" key = true ->
  Header.free_of "=" s = true ->
  String.prefix (key ++ String "=" r1) (s ++ String ";" r2) = false.
Proof.
  induction key as [|a key IH]; intros s r1 r2 Hkey Hs.
  - destruct s as [|x s]; [reflexivity|].
    simpl in Hs. apply andb_true_iff in Hs as [Hx _]. apply negb_true_iff in Hx.
    cbn [String.append]. rewrite prefix_cons.
    destruct (ascii_dec "=" x) as [E|_]; [|reflexivity].
    subst x. discriminate Hx.
  - simpl in Hkey. apply andb_true_iff in Hkey as [Ha Hkey]. apply negb_true_iff in Ha.
    destruct s as [|x s].
    + cbn [String.append]. rewrite prefix_cons.
      destruct (ascii_dec a ";") as [E|_]; [|reflexivity].
      subst a. discriminate Ha.
    + simpl in Hs. apply andb_true_iff in Hs as [_ Hs].
      cbn [String.append]. rewrite prefix_cons.
      destruct (ascii_dec a x) as [E|_]; [|reflexivity].
      apply IH; assumption.
Qed.

Lemma clear_in_key key r1 : forall k r2,
  Header.free_of "=" key = true ->
  Header.free_of "=" k = true ->
  Search.ends_with key k = false ->
  Search.clear_before (key ++ String "=" r1) k (String "=" r2) = true.
Proof.
  induction k as [|x k IH]; intros r2 Hkey Hk Hends; [reflexivity|].
  cbn [Search.clear_before]. cbn [Search.ends_with] in Hends.
  apply orb_false_iff in Hends as [Hne Hends].
  apply String.eqb_neq in Hne.
  rewrite (no_match_in_key key (String x k) r1 r2 Hkey Hk Hne).
  simpl in Hk. apply andb_true_iff in Hk as [_ Hk].
  rewrite (IH r2 Hkey Hk Hends). reflexivity.
Qed.

Lemma clear_in_value key r1 : forall v r2,
  Header.free_of ";" key = true ->
  Header.free_of "=" v = true ->
  Search.clear_before (key ++ String "=" r1) (v ++ ";") r2 = true.
Proof.
  induction v as [|x v IH]; intros r2 Hkey Hv.
  - change (EmptyString ++ ";") with (String ";" EmptyString).
    cbn [Search.clear_before].
    change (String ";" EmptyString ++ r2) with (EmptyString ++ String ";" r2).
    rewrite (no_match_in_value key EmptyString r1 r2 Hkey eq_refl). reflexivity.
  - change (String x v ++ ";") with (String x (v ++ ";")).
    cbn [Search.clear_before].
    change (String x (v ++ ";") ++ r2) with (String x ((v ++ ";") ++ r2)).
    rewrite HeaderFacts.append_assoc.
    change (String x (v ++ ";" ++ r2)) with (String x v ++ String ";" r2).
    rewrite (no_match_in_value key (String x v) r1 r2 Hkey Hv).
    simpl in Hv. apply andb_true_iff in Hv as [_ Hv].
    rewrite (IH r2 Hkey Hv). reflexivity.
Qed.

(** When no earlier key ends with the key, the text of the key's token
    does not occur inside the earlier tokens. *)
Lemma clear_before_tokens key r1 before : forall rest,
  Header.plain key = true ->
  key <> EmptyString ->
  Header.well_formed before = true ->
  Search.no_key_ends_with key before = true ->
  Search.clear_before (key ++ String "=" r1) (Header.encode before) rest = true.
Proof.
  induction before as [|[k v] before IH]; intros rest Hkey Hne Hwf Hends; [reflexivity|].
  unfold Search.no_key_ends_with in *. simpl in Hwf, Hends.
  rewrite !andb_true_iff in Hwf. destruct Hwf as [[Hk Hv] Hwf].
  apply andb_true_iff in Hends as [Hend Hends]. apply negb_true_iff in Hend.
  unfold Header.plain in Hkey, Hk, Hv.
  apply andb_true_iff in Hkey as [Hkey1 Hkey2].
  apply andb_true_iff in Hk as [_ Hk2]. apply andb_true_iff in Hv as [_ Hv2].
  change (Header.encode ((k, v) :: before))
    with (k ++ "=" ++ v ++ ";" ++ Header.encode before).
  replace (k ++ "=" ++ v ++ ";" ++ Header.encode before)
    with (k ++ (String "=" (v ++ ";")) ++ Header.encode before).
  2:{ simpl. rewrite HeaderFacts.append_assoc. reflexivity. }
  rewrite clear_before_app.
  change ((String "=" (v ++ ";") ++ Header.encode before) ++ rest)
    with (String "=" (((v ++ ";") ++ Header.encode before) ++ rest)).
  rewrite (clear_in_key key r1 k _ Hkey2 Hk2 Hend).
  change (String "=" (v ++ ";") ++ Header.encode before)
    with (String "=" ((v ++ ";") ++ Header.encode before)).
  cbn [Search.clear_before].
  change (String "=" ((v ++ ";") ++ Header.encode before) ++ rest)
    with (EmptyString ++ String "=" (((v ++ ";") ++ Header.encode before) ++ rest)).
  rewrite (no_match_in_key key EmptyString r1 _ Hkey2 eq_refl)
    by (intros E; apply Hne; symmetry; exact E).
  rewrite clear_before_app, (clear_in_value key r1 v _ Hkey1 Hv2).
  rewrite (IH rest); try assumption; unfold Header.plain; try (rewrite Hkey1, Hkey2);
    reflexivity.
Qed.

Lemma append_empty s : s ++ EmptyString = s.
Proof. induction s as [|a s IH]; simpl; [reflexivity | rewrite IH; reflexivity]. Qed.

(** A text that occurs nowhere from the start on does not occur. *)
Lemma clear_before_includes pat s :
  pat <> EmptyString ->
  Search.clear_before pat s EmptyString = true ->
  Search.includes pat s = false.
Proof.
  intros Hpat. induction s as [|a s IH]; intros H.
  - destruct pat; [congruence | reflexivity].
  - cbn [Search.clear_before] in H. apply andb_true_iff in H as [Hhere Hlater].
    apply negb_true_iff in Hhere. rewrite append_empty in Hhere.
    cbn [Search.includes]. rewrite Hhere. exact (IH Hlater).
Qed.

Lemma no_key_ends_with_lookup key kvs :
  Search.no_key_ends_with key kvs = true -> Header.lookup key kvs = None.
Proof.
  induction kvs as [|[k v] kvs IH]; [reflexivity|].
  unfold Search.no_key_ends_with in *. simpl.
  intros H. apply andb_true_iff in H as [Hk H]. apply negb_true_iff in Hk.
  destruct k; cbn [Search.ends_with] in Hk; apply orb_false_iff in Hk as [Hk _];
    rewrite Hk; exact (IH H).
Qed.

End ClearFacts.

(** ** The header tables *)

Module TableFacts.

Lemma encode_app a b : Header.encode (a ++ b)%list = Header.encode a ++ Header.encode b.
Proof.
  induction a as [|[k v] a IH]; simpl; [reflexivity|].
  rewrite IH, !HeaderFacts.append_assoc. simpl. rewrite HeaderFacts.append_assoc.
  reflexivity.
Qed.

Lemma lookup_app key a b :
  Header.lookup key (a ++ b)%list
  = match Header.lookup key a with
    | Some v => Some v
    | None => Header.lookup key b
    end.
Proof.
  induction a as [|[k v] a IH]; simpl; [reflexivity|].
  destruct (String.eqb k key); [reflexivity | exact IH].
Qed.

Lemma well_formed_app a b :
  Header.well_formed (a ++ b)%list = Header.well_formed a && Header.well_formed b.
Proof. unfold Header.well_formed. apply forallb_app. Qed.

(** [getRequestProperty] on an encoded header. *)
Lemma getRequestProperty_encode key kvs :
  Header.well_formed kvs = true ->
  Header.getRequestProperty (Header.encode kvs) key
  = match Header.lookup key kvs with
    | Some v => Js.Str v
    | None => Js.Undefined
    end.
Proof.
  intros Hwf. unfold Header.getRequestProperty.
  rewrite (HeaderFacts.scan_encode key kvs Hwf).
  destruct (Header.lookup key kvs); [reflexivity|].
  destruct (String.eqb EmptyString key); reflexivity.
Qed.

(** The token of a pair, and the header around it. *)
Lemma encode_token pre k v post :
  Header.encode (pre ++ (k, v) :: post)%list
  = Header.encode pre ++ (k ++ "=" ++ v ++ ";") ++ Header.encode post.
Proof.
  rewrite encode_app. simpl. rewrite !HeaderFacts.append_assoc. simpl.
  rewrite !HeaderFacts.append_assoc. reflexivity.
Qed.

Lemma encode_single k v : Header.encode [(k, v)] = k ++ "=" ++ v ++ ";".
Proof. reflexivity. Qed.

(** [setRequestProperty] on a header without the key, when the text it
    searches for does not occur. *)
Lemma set_appends kvs key value :
  Header.well_formed kvs = true ->
  Header.lookup key kvs = None ->
  Search.includes (key ++ "=undefined;") (Header.encode kvs) = false ->
  Header.setRequestProperty (Header.encode kvs) key value
  = Header.encode (kvs ++ [(key, value)]).
Proof.
  intros Hwf Hnew Hclear. unfold Header.setRequestProperty.
  rewrite (getRequestProperty_encode key kvs Hwf), Hnew. cbn [Js.to_string].
  rewrite (ReplaceFacts.replace_absent _ _ _ Hclear).
  rewrite encode_app, encode_single. reflexivity.
Qed.

(** [setRequestProperty] on a header with the key, when the first place
    where the text of its token occurs is the token. *)
Lemma set_replaces before after key old value :
  Header.well_formed (before ++ (key, old) :: after) = true ->
  Header.lookup key before = None ->
  Search.clear_before (key ++ "=" ++ old ++ ";") (Header.encode before)
    ((key ++ "=" ++ old ++ ";") ++ Header.encode after) = true ->
  Header.setRequestProperty (Header.encode (before ++ (key, old) :: after)) key value
  = Header.encode (before ++ after ++ [(key, value)]).
Proof.
  intros Hwf Hbefore Hclear. unfold Header.setRequestProperty.
  rewrite (getRequestProperty_encode key _ Hwf).
  rewrite lookup_app, Hbefore. cbn [Header.lookup].
  rewrite String.eqb_refl. cbn [Js.to_string].
  rewrite encode_token.
  rewrite (ReplaceFacts.replace_first _ EmptyString _ _ Hclear).
  rewrite !encode_app, encode_single.
  simpl. rewrite !HeaderFacts.append_assoc. reflexivity.
Qed.

End TableFacts.

Section MoreProofs.

Context {ext : Externals}.

Ltac unfold_monad :=
  cbv [mbind mret M_bind M_ret bind ret get modify emit throw try_catch].

Lemma getRequestProperty_runs c h key :
  requestHeader c = Some h ->
  getRequestProperty key c = (Return (Header.getRequestProperty h key), c, []).
Proof.
  intros Hh. unfold getRequestProperty. unfold_monad. rewrite Hh. reflexivity.
Qed.

Lemma setRequestProperty_runs c h key value :
  requestHeader c = Some h ->
  setRequestProperty key value c
  = (Return tt, set_requestHeader (Some (Header.setRequestProperty h key value)) c, []).
Proof.
  intros Hh. unfold setRequestProperty, getRequestProperty. unfold_monad.
  rewrite Hh. simpl. rewrite Hh. reflexivity.
Qed.

Lemma getResponseProperty_runs c h key :
  responseHeader c = Some h ->
  getResponseProperty key c = (Return (Header.getResponseProperty h key), c, []).
Proof.
  intros Hh. unfold getResponseProperty. unfold_monad. rewrite Hh. reflexivity.
Qed.

(** X1. On a header of well-formed tokens [getRequestProperty] gives the
    value of the first token with the key, and [undefined] when no token has
    it; the client is left as it is. *)
Theorem getRequestProperty_reads_first_token c kvs key :
  requestHeader c = Some (Header.encode kvs) ->
  Header.well_formed kvs = true ->
  getRequestProperty key c
  = (Return (match Header.lookup key kvs with
             | Some v => Js.Str v
             | None => Js.Undefined
             end), c, []).
Proof.
  intros Hh Hwf.
  rewrite (getRequestProperty_runs c _ key Hh), (TableFacts.getRequestProperty_encode key kvs Hwf).
  reflexivity.
Qed.

(** X2. On a header of well-formed tokens [getResponseProperty] gives the
    value of the first token with the key and the empty text when no token
    has it: a key that is missing and a key with an empty value read the
    same, and the answer is never [undefined]. *)
Theorem getResponseProperty_missing_reads_empty c kvs key :
  responseHeader c = Some (Header.encode kvs) ->
  Header.well_formed kvs = true ->
  key <> EmptyString ->
  getResponseProperty key c
  = (Return (Js.Str (default EmptyString (Header.lookup key kvs))), c, []).
Proof.
  intros Hh Hwf Hkey.
  rewrite (getResponseProperty_runs c _ key Hh),
    (HeaderFacts.getResponseProperty_encode key kvs Hwf Hkey).
  reflexivity.
Qed.

(** X3. Take a request header of well-formed tokens (keys and values free
    of [;] and [=]), a key that is not empty and free of [;] and [=], with
    which no key of the header ends, and a value free of [;] and [=]. Setting
    the key appends the token [key=value;]: the key then reads as the value
    and every other key reads as before. *)
Theorem setRequestProperty_appends_new_key c kvs key value :
  requestHeader c = Some (Header.encode kvs) ->
  Header.well_formed kvs = true ->
  Header.plain key = true ->
  key <> EmptyString ->
  Header.plain value = true ->
  Search.no_key_ends_with key kvs = true ->
  let c1 := set_requestHeader (Some (Header.encode (kvs ++ [(key, value)]))) c in
  setRequestProperty key value c = (Return tt, c1, [])
  /\ getRequestProperty key c1 = (Return (Js.Str value), c1, [])
  /\ forall other, other <> key ->
       completion_of (getRequestProperty other c1)
       = completion_of (getRequestProperty other c).
Proof.
  intros Hh Hwf Hk Hne Hv Hends c1.
  assert (Hnew := ClearFacts.no_key_ends_with_lookup key kvs Hends).
  assert (Hclear : Search.includes (key ++ "=undefined;") (Header.encode kvs) = false).
  { apply ClearFacts.clear_before_includes; [destruct key; discriminate|].
    exact (ClearFacts.clear_before_tokens key "undefined;" kvs EmptyString
             Hk Hne Hwf Hends). }
  assert (Hwf1 : Header.well_formed (kvs ++ [(key, value)]) = true).
  { rewrite TableFacts.well_formed_app, Hwf. simpl. rewrite Hk, Hv. reflexivity. }
  assert (Hh1 : requestHeader c1 = Some (Header.encode (kvs ++ [(key, value)])))
    by (destruct c; reflexivity).
  split; [|split].
  - rewrite (setRequestProperty_runs c _ key value Hh). unfold c1.
    rewrite (TableFacts.set_appends kvs key value Hwf Hnew Hclear). reflexivity.
  - rewrite (getRequestProperty_runs c1 _ key Hh1),
      (TableFacts.getRequestProperty_encode key _ Hwf1).
    rewrite TableFacts.lookup_app, Hnew. simpl. rewrite String.eqb_refl. reflexivity.
  - intros other Hother.
    rewrite (getRequestProperty_runs c1 _ other Hh1),
      (TableFacts.getRequestProperty_encode other _ Hwf1).
    rewrite (getRequestProperty_runs c _ other Hh),
      (TableFacts.getRequestProperty_encode other _ Hwf).
    unfold completion_of. cbn [fst]. rewrite TableFacts.lookup_app. simpl.
    destruct (Header.lookup other kvs); [reflexivity|].
    destruct (String.eqb_spec key other); [congruence | reflexivity].
Qed.

(** X4. Take a request header of well-formed tokens (keys and values free
    of [;] and [=]) that has a token for a key that is not empty, no key of
    an earlier token ending with it, and a value free of [;] and [=]. Setting
    the key removes that token and appends the new one: the tokens of the
    other keys stay in their order, and the key reads as the new value when
    no later token has it. *)
Theorem setRequestProperty_replaces_token c before after key old value :
  requestHeader c = Some (Header.encode (before ++ (key, old) :: after)) ->
  Header.well_formed (before ++ (key, old) :: after) = true ->
  key <> EmptyString ->
  Header.plain value = true ->
  Search.no_key_ends_with key before = true ->
  let c1 := set_requestHeader
              (Some (Header.encode (before ++ after ++ [(key, value)]))) c in
  setRequestProperty key value c = (Return tt, c1, [])
  /\ (Header.lookup key after = None ->
      getRequestProperty key c1 = (Return (Js.Str value), c1, [])).
Proof.
  intros Hh Hwf Hne Hv Hends c1.
  assert (Hparts := Hwf).
  rewrite TableFacts.well_formed_app in Hparts. simpl in Hparts.
  rewrite !andb_true_iff in Hparts. destruct Hparts as (Hwfb & (Hk & Hold) & Hwfa).
  assert (Hbefore := ClearFacts.no_key_ends_with_lookup key before Hends).
  assert (Hclear :
    Search.clear_before (key ++ "=" ++ old ++ ";") (Header.encode before)
      ((key ++ "=" ++ old ++ ";") ++ Header.encode after) = true).
  { exact (ClearFacts.clear_before_tokens key (old ++ ";") before _ Hk Hne Hwfb Hends). }
  assert (Hwf1 : Header.well_formed (before ++ after ++ [(key, value)]) = true).
  { rewrite !TableFacts.well_formed_app, Hwfb, Hwfa. simpl. rewrite Hk, Hv. reflexivity. }
  assert (Hh1 : requestHeader c1
                = Some (Header.encode (before ++ after ++ [(key, value)])))
    by (destruct c; reflexivity).
  split.
  - rewrite (setRequestProperty_runs c _ key value Hh). unfold c1.
    rewrite (TableFacts.set_replaces before after key old value Hwf Hbefore Hclear).
    reflexivity.
  - intros Hafter.
    rewrite (getRequestProperty_runs c1 _ key Hh1),
      (TableFacts.getRequestProperty_encode key _ Hwf1).
    rewrite !TableFacts.lookup_app, Hbefore, Hafter. simpl.
    rewrite String.eqb_refl. reflexivity.
Qed.

(** X5. From the empty header, setting a key twice leaves the single token
    of the second value, and the key reads as that value. *)
Theorem set_twice_from_empty_header c key first second :
  requestHeader c = Some EmptyString ->
  Header.plain key = true ->
  Header.plain first = true ->
  Header.plain second = true ->
  (setRequestProperty key first;; setRequestProperty key second;;
   getRequestProperty key) c
  = (Return (Js.Str second),
     set_requestHeader (Some (key ++ "=" ++ second ++ ";")) c, []).
Proof.
  intros Hh Hk H1 H2.
  assert (Hset1 : Header.setRequestProperty EmptyString key first
                  = Header.encode [(key, first)]).
  { apply (TableFacts.set_appends [] key first eq_refl eq_refl).
    destruct key; reflexivity. }
  assert (Hwf1 : Header.well_formed [(key, first)] = true)
    by (simpl; rewrite Hk, H1; reflexivity).
  assert (Hwf2 : Header.well_formed [(key, second)] = true)
    by (simpl; rewrite Hk, H2; reflexivity).
  assert (Hset2 : Header.setRequestProperty (Header.encode [(key, first)]) key second
                  = Header.encode [(key, second)]).
  { exact (TableFacts.set_replaces [] [] key first second Hwf1 eq_refl eq_refl). }
  unfold mbind, M_bind, bind.
  rewrite (setRequestProperty_runs c _ key first Hh), Hset1.
  rewrite (setRequestProperty_runs _ (Header.encode [(key, first)]) key second)
    by (destruct c; reflexivity).
  rewrite Hset2.
  rewrite (getRequestProperty_runs _ (Header.encode [(key, second)]) key)
    by (destruct c; reflexivity).
  rewrite (TableFacts.getRequestProperty_encode key _ Hwf2).
  simpl. rewrite String.eqb_refl. destruct c; reflexivity.
Qed.

(** ** Sending *)

(** X6. [asyncSend] does all or nothing. When it throws, the client is as
    before and no frame was written. When it returns, the callback was an
    object, the socket was open, the closure is registered under
    [crc32(operator) + sequence] and exactly one frame was written, packed
    from the hash, the time, the request header and the parameter. *)
Theorem asyncSend_all_or_nothing c operator param callback now :
  let r := asyncSend operator param callback now c in
  let key := crc32 operator + now in
  match completion_of r with
  | Throw _ => client_of r = c /\ frames_sent (trace_of r) = []
  | Return _ =>
      exists cb reg,
        callback = Object cb
        /\ readyState (socket c) = OPEN
        /\ requestCallback c = Some reg
        /\ client_of r
           = set_requestCallback (Some (<[key := AsyncSendListener cb key]> reg)) c
        /\ frames_sent (trace_of r)
           = [pack (crc32 operator) now
                   (from_option Js.Str Js.Undefined (requestHeader c))
                   (JSON_stringify param)]
  end.
Proof.
  destruct c as [rc rh rsh mp u rt rl [su state] rsc].
  unfold asyncSend, registry_set, call_if_function, send, not_open,
    completion_of, client_of, trace_of.
  unfold_monad. simpl.
  destruct callback as [| |cb]; simpl; [auto | destruct state; simpl; auto |].
  destruct state; simpl; auto.
  destruct (onStart cb); simpl; destruct rc as [reg|]; simpl; auto;
    exists cb, reg; auto.
Qed.

(** X7. The checks of [asyncSend] come in a fixed order and before any
    effect on the client. A callback that is not an object is refused with
    [callback must be an object] whatever the state of the socket and of the
    client. On a socket that is not open an object, or [null], is refused
    with [asyncSend: connection refuse]. In each case the client is left as
    it was, no user function is called, [onStart] included, and no frame is
    written. *)
Theorem asyncSend_refusals c operator param now :
  (let refused := asyncSend operator param NotAnObject now c in
   completion_of refused = Throw (MkError "Error" "callback must be an object")
   /\ client_of refused = c
   /\ invocations (trace_of refused) = []
   /\ frames_sent (trace_of refused) = [])
  /\ (readyState (socket c) <> OPEN ->
      (forall callback,
         let refused := asyncSend operator param (Object callback) now c in
         completion_of refused = Throw (MkError "Error" "asyncSend: connection refuse")
         /\ client_of refused = c
         /\ invocations (trace_of refused) = []
         /\ frames_sent (trace_of refused) = [])
      /\ (let refused := asyncSend operator param NullObject now c in
          completion_of refused = Throw (MkError "Error" "asyncSend: connection refuse")
          /\ client_of refused = c
          /\ invocations (trace_of refused) = []
          /\ frames_sent (trace_of refused) = [])).
Proof.
  split.
  - repeat split; reflexivity.
  - intros Hclosed.
    destruct c as [rc rh rsh mp u rt rl [su state] rsc]. simpl in Hclosed.
    unfold asyncSend, not_open. unfold_monad. simpl.
    destruct state; try congruence; repeat split; reflexivity.
Qed.

(** X8. On an open client without a registry, [asyncSend] has already
    called [onStart] when the registration fails: the callback sees a start
    that no end follows, and no frame is written. *)
Theorem asyncSend_calls_onStart_before_failing c operator param callback now start :
  requestCallback c = None ->
  readyState (socket c) = OPEN ->
  onStart callback = Function start ->
  asyncSend operator param (Object callback) now c
  = (Throw (TypeError "Cannot set properties of undefined"), c,
     [Console "info" ["websocket send data"]; Invoke start []]).
Proof.
  intros Hreg Hopen Hstart.
  destruct c as [rc rh rsh mp u rt rl sock rsc]. simpl in Hreg, Hopen. subst rc.
  unfold asyncSend, registry_set, call_if_function, not_open. unfold_monad. simpl.
  rewrite Hopen, Hstart. reflexivity.
Qed.

(** X9. [ping] does all or nothing. When it throws, the client is as
    before and nothing was done; on a socket that is not open the error is
    the connection error, worded as for [asyncSend]. When it returns, the
    listener is registered under the hash of 0 and exactly one frame was
    written, with operator 0 and sequence 0. No function of the callback is
    called by [ping] itself. *)
Theorem ping_all_or_nothing c param callback :
  let r := ping param callback c in
  invocations (trace_of r) = []
  /\ match completion_of r with
     | Throw e =>
         client_of r = c /\ trace_of r = []
         /\ (readyState (socket c) <> OPEN ->
             e = MkError "Error" "asyncSend: connection refuse")
     | Return _ =>
         exists reg,
           readyState (socket c) = OPEN
           /\ requestCallback c = Some reg
           /\ client_of r
              = set_requestCallback
                  (Some (<[crc32 (OpNumber 0) := PingListener callback]> reg)) c
           /\ trace_of r
              = [SocketSend (pack 0 0 (from_option Js.Str Js.Undefined (requestHeader c))
                                  (JSON_stringify param))]
     end.
Proof.
  destruct c as [rc rh rsh mp u rt rl [su state] rsc].
  unfold ping, addMessageListener, registry_set, send, not_open,
    completion_of, client_of, trace_of.
  unfold_monad. simpl.
  destruct state; simpl; auto; destruct rc as [reg|]; simpl; auto.
  - split; [reflexivity|]. exists reg. auto.
  - split; [reflexivity|]. split; [reflexivity|]. split; [reflexivity|].
    intros H. congruence.
Qed.

(** X10. A second [ping] replaces the listener of the first: the registry
    holds the second callback alone under the hash of 0, and both frames were
    written. *)
Theorem ping_replaces_previous_listener c reg param1 callback1 param2 callback2 :
  requestCallback c = Some reg ->
  readyState (socket c) = OPEN ->
  (ping param1 callback1;; ping param2 callback2) c
  = (Return tt,
     set_requestCallback (Some (<[crc32 (OpNumber 0) := PingListener callback2]> reg)) c,
     [SocketSend (pack 0 0 (from_option Js.Str Js.Undefined (requestHeader c))
                       (JSON_stringify param1));
      SocketSend (pack 0 0 (from_option Js.Str Js.Undefined (requestHeader c))
                       (JSON_stringify param2))]).
Proof.
  intros Hreg Hopen.
  unfold mbind, M_bind, bind.
  rewrite (ping_registers c reg param1 callback1 Hreg Hopen).
  rewrite (ping_registers _ (<[crc32 (OpNumber 0) := PingListener callback1]> reg)
             param2 callback2);
    [| destruct c; reflexivity | destruct c; exact Hopen].
  rewrite insert_insert_eq. destruct c; reflexivity.
Qed.

(** ** Listeners *)

Lemma addMessageListener_runs c reg operator listener :
  requestCallback c = Some reg ->
  addMessageListener operator listener c
  = (Return tt, set_requestCallback (Some (<[crc32 operator := listener]> reg)) c, []).
Proof.
  intros Hreg. unfold addMessageListener, registry_set. unfold_monad.
  rewrite Hreg. reflexivity.
Qed.

Lemma removeMessageListener_runs c reg operator :
  requestCallback c = Some reg ->
  removeMessageListener operator c
  = (Return tt, set_requestCallback (Some (delete (crc32 operator) reg)) c, []).
Proof.
  intros Hreg. unfold removeMessageListener, registry_delete. unfold_monad.
  rewrite Hreg. reflexivity.
Qed.

(** X11. Removing a listener after adding it leaves the registry without
    an entry for the operator's hash: what was there before the addition is
    not put back. When nothing was there, the client is exactly as before. *)
Theorem add_then_remove_listener c reg operator listener :
  requestCallback c = Some reg ->
  (addMessageListener operator listener;; removeMessageListener operator) c
  = (Return tt, set_requestCallback (Some (delete (crc32 operator) reg)) c, [])
  /\ (reg !! crc32 operator = None ->
      (addMessageListener operator listener;; removeMessageListener operator) c
      = (Return tt, c, [])).
Proof.
  intros Hreg.
  assert (Hboth :
    (addMessageListener operator listener;; removeMessageListener operator) c
    = (Return tt, set_requestCallback (Some (delete (crc32 operator) reg)) c, [])).
  { unfold mbind, M_bind, bind.
    rewrite (addMessageListener_runs c reg operator listener Hreg).
    rewrite (removeMessageListener_runs _ (<[crc32 operator := listener]> reg));
      [| destruct c; reflexivity].
    rewrite delete_insert_eq. destruct c; reflexivity. }
  split; [exact Hboth|].
  intros Hfresh. rewrite Hboth, (delete_id _ _ Hfresh).
  destruct c; simpl in Hreg; subst; reflexivity.
Qed.

(** ** Receiving *)


(** The closure of [asyncSend] delivered through the handler. *)
Lemma one_shot_delivery c reg buffer p callback key data :
  requestCallback c = Some reg ->
  unPack buffer = Return p ->
  headerLength p + bodyLength p + 20 <= MAX_PAYLOAD ->
  operator p + sequence p = key ->
  reg !! key = Some (AsyncSendListener callback key) ->
  JSON_parse (parsed_body p) = Some data ->
  exists t,
    ws_onmessage (Blob buffer) c
    = (Return tt,
       set_requestCallback (Some (delete key reg))
         (set_responseHeader (Some (header p)) c), t)
    /\ invocations t = asyncSend_calls callback (header p) data.
Proof.
  intros Hreg Hun Hsize Hkey Hl Hparse.
  destruct (asyncSend_listener_runs callback key data
              (set_responseHeader (Some (header p)) c) reg (header p))
    as (t & Hrun & Hcalls); [destruct c; simpl in *; congruence | destruct c; reflexivity |].
  assert (Hmsg := onmessage_matched c reg buffer p (AsyncSendListener callback key)
                    data (Return tt)
                    (set_requestCallback (Some (delete key reg))
                       (set_responseHeader (Some (header p)) c))
                    t Hreg Hun Hsize).
  rewrite Hkey in Hmsg. specialize (Hmsg Hl Hparse Hrun).
  eexists. split; [exact Hmsg|].
  simpl. rewrite invocations_app, invocations_receive_log, app_nil_r. exact Hcalls.
Qed.


(** X13. After [removeMessageListener] a frame for the operator is
    dropped, whatever the registry held under its hash: no function is
    called and the client is left as it is. *)
Theorem removed_listener_hears_nothing c reg operator_name buffer p :
  requestCallback c = Some reg ->
  unPack buffer = Return p ->
  headerLength p + bodyLength p + 20 <= MAX_PAYLOAD ->
  operator p + sequence p = crc32 operator_name ->
  let c1 := client_of (removeMessageListener operator_name c) in
  exists t,
    ws_onmessage (Blob buffer) c1 = (Return tt, c1, t)
    /\ invocations t = [].
Proof.
  intros Hreg Hun Hsize Hkey c1.
  assert (Hc1 : c1 = set_requestCallback (Some (delete (crc32 operator_name) reg)) c).
  { unfold c1. rewrite (removeMessageListener_runs c reg _ Hreg). reflexivity. }
  rewrite Hc1.
  rewrite (onmessage_unmatched _ (delete (crc32 operator_name) reg) buffer p);
    [| destruct c; reflexivity | exact Hun | exact Hsize
     | rewrite Hkey; apply lookup_delete_eq].
  eexists. split; [reflexivity|]. simpl. apply invocations_receive_log.
Qed.

(** X14. Two calls to [asyncSend] whose keys, hash of the operator plus
    time of the call, coincide share one entry: two calls to one operator
    within the same millisecond, or calls to two operators whose sums
    collide. On a client with a registry and an open socket the second
    registration replaces the first and both frames are written. A reply
    whose operator code and sequence add up to that key, within the size
    limit and with a body that parses, calls the functions of the second
    callback only, and the same reply arriving again is dropped. *)
Theorem same_key_calls_share_one_entry
    c reg operator1 param1 callback1 now1 operator2 param2 callback2 now2
    buffer p data :
  requestCallback c = Some reg ->
  readyState (socket c) = OPEN ->
  crc32 operator1 + now1 = crc32 operator2 + now2 ->
  unPack buffer = Return p ->
  operator p + sequence p = crc32 operator2 + now2 ->
  headerLength p + bodyLength p + 20 <= MAX_PAYLOAD ->
  JSON_parse (parsed_body p) = Some data ->
  let sent := (asyncSend operator1 param1 (Object callback1) now1;;
               asyncSend operator2 param2 (Object callback2) now2) c in
  let key := crc32 operator2 + now2 in
  completion_of sent = Return tt
  /\ List.length (frames_sent (trace_of sent)) = 2%nat
  /\ requestCallback (client_of sent)
     = Some (<[key := AsyncSendListener callback2 key]> reg)
  /\ invocations (trace_of (ws_onmessage (Blob buffer) (client_of sent)))
     = asyncSend_calls callback2 (header p) data
  /\ invocations
       (trace_of (ws_onmessage (Blob buffer)
                    (client_of (ws_onmessage (Blob buffer) (client_of sent)))))
     = [].
Proof.
  intros Hreg Hopen Hsame Hun Hkey Hsize Hparse sent key.
  destruct (asyncSend_registers c reg operator1 param1 callback1 now1 Hreg Hopen)
    as (t1 & Hsend1 & _ & Hframes1).
  cbv zeta in Hsend1. rewrite Hsame in Hsend1. fold key in Hsend1.
  set (c1 := set_requestCallback (Some (<[key := AsyncSendListener callback1 key]> reg)) c)
    in *.
  destruct (asyncSend_registers c1 (<[key := AsyncSendListener callback1 key]> reg)
              operator2 param2 callback2 now2)
    as (t2 & Hsend2 & _ & Hframes2);
    [destruct c; reflexivity | destruct c; exact Hopen |].
  fold key in Hsend2. rewrite insert_insert_eq in Hsend2.
  set (reg2 := <[key := AsyncSendListener callback2 key]> reg) in *.
  assert (Hsent : sent = (Return tt, set_requestCallback (Some reg2) c, (t1 ++ t2)%list)).
  { unfold sent, mbind, M_bind, bind. rewrite Hsend1, Hsend2. destruct c; reflexivity. }
  rewrite Hsent. unfold completion_of, client_of, trace_of. cbn [fst snd].
  fold key in Hkey.
  destruct (one_shot_delivery (set_requestCallback (Some reg2) c) reg2 buffer p
              callback2 key data) as (t & Hmsg & Hcalls);
    [destruct c; reflexivity | exact Hun | exact Hsize | exact Hkey
     | apply lookup_insert_eq | exact Hparse |].
  rewrite Hmsg. cbn [fst snd].
  assert (Hframes : forall a b, frames_sent (a ++ b)%list
                                = (frames_sent a ++ frames_sent b)%list).
  { intros a b. induction a as [|e a IH]; simpl; [reflexivity|].
    destruct e; simpl; rewrite IH; reflexivity. }
  split; [reflexivity|].
  split; [rewrite Hframes, Hframes1, Hframes2; reflexivity|].
  split; [destruct c; reflexivity|].
  split; [exact Hcalls|].
  rewrite (onmessage_unmatched _ (delete key reg2) buffer p);
    [| destruct c; reflexivity | exact Hun | exact Hsize
     | rewrite Hkey; apply lookup_delete_eq].
  simpl. apply invocations_receive_log.
Qed.


(** X16. A matched frame whose body does not parse: the handler throws,
    no function is called and the entry stays registered, so a one-shot call
    is not completed; the response header has already been replaced by the
    frame's. *)
Theorem unparsable_body_keeps_the_entry c reg buffer p l :
  requestCallback c = Some reg ->
  unPack buffer = Return p ->
  headerLength p + bodyLength p + 20 <= MAX_PAYLOAD ->
  reg !! (operator p + sequence p) = Some l ->
  JSON_parse (parsed_body p) = None ->
  ws_onmessage (Blob buffer) c
  = (Throw (MkError "Error" "SyntaxError: Unexpected token in JSON"),
     set_responseHeader (Some (header p)) c,
     [UnPack buffer; Console "info" ["SyntaxError: Unexpected token in JSON"]]).
Proof.
  intros Hreg Hun Hsize Hl Hparse.
  unfold ws_onmessage, onload_body, registry. unfold_monad.
  rewrite Hun.
  destruct (Z.ltb_spec MAX_PAYLOAD (headerLength p + bodyLength p + 20)); [lia|].
  rewrite Hreg, Hl. fold (parsed_body p). rewrite Hparse. reflexivity.
Qed.

(** X17. A message that cannot be decoded changes nothing: when [unPack]
    throws, the handler logs the error and throws it again wrapped in a new
    [Error]; a message that is not a blob makes it throw at once, without a
    log. In both cases the client is as before and no function is called. *)
Theorem undecodable_message_changes_nothing c buffer e text :
  unPack buffer = Throw e ->
  ws_onmessage (Blob buffer) c
  = (Throw (MkError "Error" (error_to_string e)), c,
     [UnPack buffer; Console "info" [error_to_string e]])
  /\ ws_onmessage (Text text) c
     = (Throw (MkError "Error" "websocket unsupported data format"), c, []).
Proof.
  intros Hun. split; [|reflexivity].
  unfold ws_onmessage, onload_body. unfold_monad. rewrite Hun. reflexivity.
Qed.

(** X18. On a client just built every frame that decodes within the size
    limit makes the handler throw: the registry it looks the key up in is
    [undefined]. *)
Theorem fresh_client_rejects_every_frame url rsc buffer p :
  unPack buffer = Return p ->
  headerLength p + bodyLength p + 20 <= MAX_PAYLOAD ->
  ws_onmessage (Blob buffer) (constructor url rsc)
  = (Throw (MkError "Error" "TypeError: Cannot read properties of undefined"),
     constructor url rsc,
     [UnPack buffer; Console "info" ["TypeError: Cannot read properties of undefined"]]).
Proof.
  intros Hun Hsize.
  unfold ws_onmessage, onload_body, registry. unfold_monad.
  rewrite Hun.
  destruct (Z.ltb_spec MAX_PAYLOAD (headerLength p + bodyLength p + 20)); [lia|].
  reflexivity.
Qed.

(** ** What the handlers leave alone *)

Lemma frames_sent_app t1 t2 :
  frames_sent (t1 ++ t2)%list = (frames_sent t1 ++ frames_sent t2)%list.
Proof.
  induction t1 as [|e t1 IH]; simpl; [reflexivity|].
  destruct e; simpl; rewrite IH; reflexivity.
Qed.

(** A listener changes the registry at most, writes no frame and starts no
    timer. *)
Lemma run_listener_frame l data c :
  let r := run_listener l data c in
  same_connection c (client_of r)
  /\ responseHeader (client_of r) = responseHeader c
  /\ frames_sent (trace_of r) = []
  /\ timeouts (trace_of r) = [].
Proof.
  destruct c as [rc rh rsh mp u rt rl sock rsc].
  unfold same_connection, client_of, trace_of.
  destruct l as [[s1 s2 s3 s4] key|[s1 s2 s3 s4]|f];
    unfold run_listener, asyncSend_listener, ping_listener, getResponseProperty,
      registry_delete, call_if_function, call_if_not_null, call;
    unfold_monad; simpl.
  - destruct rsh as [h|]; simpl; [|repeat split].
    destruct (Js.defined (Header.getResponseProperty h "code")); simpl;
      [destruct s3 | destruct s2]; simpl; destruct s4; simpl;
      destruct rc; simpl; repeat split.
  - destruct rsh as [h|]; simpl; [|repeat split].
    destruct (Js.defined (Header.getResponseProperty h "code")); simpl;
      [destruct s3 | destruct s2]; simpl; destruct s4; simpl; repeat split.
  - repeat split.
Qed.

(** X19. The message handler is confined to the registry and the response
    header: whatever the message, the request header, the payload limit, the
    url, the socket, the reconnect counter and lock and the lifecycle
    callbacks are as before, no frame is written and no timer is started. *)
Theorem onmessage_is_confined data c :
  let r := ws_onmessage data c in
  same_connection c (client_of r)
  /\ frames_sent (trace_of r) = []
  /\ timeouts (trace_of r) = [].
Proof.
  destruct data as [buffer|text]; [|unfold same_connection; repeat split].
  unfold ws_onmessage, onload_body, registry. unfold_monad.
  destruct (unPack buffer) as [p|e]; [|unfold same_connection; repeat split].
  destruct (MAX_PAYLOAD <? headerLength p + bodyLength p + 20)%Z;
    [unfold same_connection; repeat split|].
  destruct (requestCallback c) as [reg|] eqn:Hreg; [|unfold same_connection; repeat split].
  destruct (reg !! (operator p + sequence p)) as [l|].
  - fold (parsed_body p).
    destruct (JSON_parse (parsed_body p)) as [parsed|].
    + pose proof (run_listener_frame l parsed (set_responseHeader (Some (header p)) c))
        as (Hsame & _ & Hframes & Htimers).
      destruct (run_listener l parsed (set_responseHeader (Some (header p)) c))
        as [[r c2] t].
      unfold client_of, trace_of in *. cbn [fst snd] in *.
      assert (Hc : same_connection c c2).
      { destruct c; exact Hsame. }
      destruct r as [[]|e]; cbn [fst snd].
      * destruct (negb (operator p + sequence p =? 0)%Z
                  && negb (String.eqb (parsed_body p) "null"));
          cbn [fst snd]; (split; [exact Hc|]);
          simpl; rewrite ?frames_sent_app, ?timeouts_app, Hframes, Htimers;
          split; reflexivity.
      * split; [exact Hc|]. simpl.
        rewrite ?frames_sent_app, ?timeouts_app, Hframes, Htimers. split; reflexivity.
    + cbn [fst snd]. split; [destruct c; unfold same_connection; repeat split|].
      split; reflexivity.
  - destruct (negb (operator p + sequence p =? 0)%Z && negb (String.eqb (body p) "null"));
      cbn [fst snd]; unfold same_connection; repeat split.
Qed.

(** X20. After a matched frame whose body parses, the response header is
    the frame's header, whether the listener returned or threw, and
    [getResponseProperty] reads from it. *)
Theorem reply_header_is_readable c reg buffer p l data key :
  requestCallback c = Some reg ->
  unPack buffer = Return p ->
  headerLength p + bodyLength p + 20 <= MAX_PAYLOAD ->
  reg !! (operator p + sequence p) = Some l ->
  JSON_parse (parsed_body p) = Some data ->
  let c2 := client_of (ws_onmessage (Blob buffer) c) in
  responseHeader c2 = Some (header p)
  /\ getResponseProperty key c2
     = (Return (Header.getResponseProperty (header p) key), c2, []).
Proof.
  intros Hreg Hun Hsize Hl Hparse c2.
  assert (Hh : responseHeader c2 = Some (header p)).
  { pose proof (run_listener_frame l data (set_responseHeader (Some (header p)) c))
      as (_ & Hresp & _).
    destruct (run_listener l data (set_responseHeader (Some (header p)) c))
      as [[r c'] t] eqn:Hrun.
    unfold c2.
    rewrite (onmessage_matched c reg buffer p l data r c' t Hreg Hun Hsize Hl Hparse Hrun).
    unfold client_of in *. cbn [fst snd] in Hresp.
    destruct r; cbn [fst snd]; rewrite Hresp; destruct c; reflexivity. }
  split; [exact Hh|].
  apply getResponseProperty_runs, Hh.
Qed.

(** ** The connection *)

Lemma step_keeps_tables w i :
  is_message i = false -> same_tables (client w) (client (step w i)).
Proof.
  destruct w as [c pend done].
  destruct c as [rc rh rsh mp u rt rl sock [o1 o2 o3]].
  destruct i; intros Hi; try discriminate Hi; unfold same_tables.
  - unfold step, run_handler, ws_onopen, call_if_function. unfold_monad. simpl.
    destruct o1; repeat split.
  - unfold step, run_handler, ws_onclose, reconnect, call_if_function. unfold_monad. simpl.
    destruct (flag_not rl); simpl; destruct o2; repeat split.
  - unfold step, run_handler, ws_onerror, reconnect, call_if_function. unfold_monad. simpl.
    destruct (flag_not rl); simpl; destruct o3; repeat split.
  - unfold step. simpl. destruct pend as [|d pend]; [repeat split|].
    unfold run_handler, reconnect_timer. unfold_monad. simpl. repeat split.
Qed.

Lemma steps_keep_tables events : forall w,
  forallb (fun i => negb (is_message i)) events = true ->
  same_tables (client w) (client (steps w events)).
Proof.
  induction events as [|i events IH]; intros w Hev.
  - unfold same_tables. repeat split.
  - simpl in Hev. apply andb_true_iff in Hev as [Hi Hev]. apply negb_true_iff in Hi.
    change (steps w (i :: events)) with (steps (step w i) events).
    destruct (step_keeps_tables w i Hi) as (H1 & H2 & H3 & H4 & H5).
    destruct (IH (step w i) Hev) as (G1 & G2 & G3 & G4 & G5).
    unfold same_tables. repeat split; congruence.
Qed.

Lemma step_writes_no_frame w i :
  is_message i = false -> frames_sent (log (step w i)) = frames_sent (log w).
Proof.
  destruct w as [c pend done].
  destruct c as [rc rh rsh mp u rt rl sock [o1 o2 o3]].
  destruct i; intros Hi; try discriminate Hi.
  - unfold step, run_handler, ws_onopen, call_if_function. unfold_monad. simpl.
    destruct o1; simpl; rewrite frames_sent_app; simpl; apply app_nil_r.
  - unfold step, run_handler, ws_onclose, reconnect, call_if_function. unfold_monad. simpl.
    destruct (flag_not rl); simpl; destruct o2; simpl;
      rewrite frames_sent_app; simpl; apply app_nil_r.
  - unfold step, run_handler, ws_onerror, reconnect, call_if_function. unfold_monad. simpl.
    destruct (flag_not rl); simpl; destruct o3; simpl;
      rewrite frames_sent_app; simpl; apply app_nil_r.
  - unfold step. simpl. destruct pend as [|d pend]; [reflexivity|].
    unfold run_handler, reconnect_timer. unfold_monad. simpl.
    rewrite app_nil_r. reflexivity.
Qed.

(** X21. Opening, closing, failing and reconnecting never touch the
    registry, the two headers, the payload limit or the url, and never write
    a frame: over any run of such events the tables are as at the start and
    nothing is sent again after a reconnection. *)
Theorem socket_events_keep_the_tables events : forall w,
  forallb (fun i => negb (is_message i)) events = true ->
  same_tables (client w) (client (steps w events))
  /\ frames_sent (log (steps w events)) = frames_sent (log w).
Proof.
  intros w Hev. split; [exact (steps_keep_tables events w Hev)|].
  revert w Hev. induction events as [|i events IH]; intros w Hev; [reflexivity|].
  simpl in Hev. apply andb_true_iff in Hev as [Hi Hev]. apply negb_true_iff in Hi.
  change (steps w (i :: events)) with (steps (step w i) events).
  rewrite (IH (step w i) Hev). exact (step_writes_no_frame w i Hi).
Qed.



(** X24. The request-side header is what travels: after
    [setRequestProperty] the frame of the next [asyncSend] is packed with
    the new request header, and [setResponseProperty] does not change the
    header a frame is packed with. *)
Theorem request_header_travels_with_frames
    c reg h h' key value operator_name param callback now :
  requestCallback c = Some reg ->
  readyState (socket c) = OPEN ->
  requestHeader c = Some h ->
  responseHeader c = Some h' ->
  frames_sent (trace_of ((setRequestProperty key value;;
                          asyncSend operator_name param (Object callback) now) c))
  = [pack (crc32 operator_name) now (Js.Str (Header.setRequestProperty h key value))
          (JSON_stringify param)]
  /\ frames_sent (trace_of ((setResponseProperty key value;;
                             asyncSend operator_name param (Object callback) now) c))
     = [pack (crc32 operator_name) now (Js.Str h) (JSON_stringify param)].
Proof.
  intros Hreg Hopen Hh Hh'.
  split.
  - unfold mbind, M_bind, bind.
    rewrite (setRequestProperty_runs c h key value Hh).
    destruct (asyncSend_registers
                (set_requestHeader (Some (Header.setRequestProperty h key value)) c)
                reg operator_name param callback now)
      as (t & Hsend & _ & Hframes);
      [destruct c; exact Hreg | destruct c; exact Hopen |].
    rewrite Hsend. unfold trace_of. cbn [fst snd app].
    rewrite Hframes. destruct c; reflexivity.
  - assert (Hset : setResponseProperty key value c
                   = (Return tt,
                      set_responseHeader
                        (Some (Header.setResponseProperty h' key value)) c, [])).
    { unfold setResponseProperty, getResponseProperty. unfold_monad.
      rewrite Hh'. simpl. rewrite Hh'. reflexivity. }
    unfold mbind, M_bind, bind. rewrite Hset.
    destruct (asyncSend_registers
                (set_responseHeader (Some (Header.setResponseProperty h' key value)) c)
                reg operator_name param callback now)
      as (t & Hsend & _ & Hframes);
      [destruct c; exact Hreg | destruct c; exact Hopen |].
    rewrite Hsend. unfold trace_of. cbn [fst snd app].
    rewrite Hframes. destruct c; simpl in Hh; subst; reflexivity.
Qed.

(** X25. The lifecycle functions are optional. Whatever the callback
    object holds for [onOpen], [onClose] and [onError] (nothing, [null], a
    value that is not a function, a function), the three socket handlers
    return normally and call the property exactly when it is an own function,
    once, with the event. A close or an error starts at most one timer, with
    the delay of the counter, and none while the lock is set. *)
Theorem lifecycle_functions_are_optional c :
  let hooks := readyStateCallback c in
  (completion_of (ws_onopen c) = Return tt
   /\ invocations (trace_of (ws_onopen c)) = calls_of (onOpen hooks) [ArgEvent]
   /\ timeouts (trace_of (ws_onopen c)) = [])
  /\ (completion_of (ws_onclose c) = Return tt
      /\ invocations (trace_of (ws_onclose c)) = calls_of (onClose hooks) [ArgEvent]
      /\ timeouts (trace_of (ws_onclose c))
         = if flag_not (reconnectLock c) then [Js.times (reconnectTimes c) 1000] else [])
  /\ (completion_of (ws_onerror c) = Return tt
      /\ invocations (trace_of (ws_onerror c)) = calls_of (onSocketError hooks) [ArgEvent]
      /\ timeouts (trace_of (ws_onerror c))
         = if flag_not (reconnectLock c) then [Js.times (reconnectTimes c) 1000] else []).
Proof.
  destruct c as [rc rh rsh mp u rt rl sock [o1 o2 o3]].
  unfold ws_onopen, ws_onclose, ws_onerror, reconnect, call_if_function,
    completion_of, trace_of.
  unfold_monad. simpl.
  split; [destruct o1; repeat split|].
  split; destruct (flag_not rl); simpl;
    [destruct o2 | destruct o2 | destruct o3 | destruct o3]; repeat split.
Qed.

End MoreProofs.

(** ** The further properties at explicit inputs *)

Lemma getRequestProperty_reads_first_token_witness :
  getRequestProperty "a" (Scene.with_header "a=1;b=2;a=3;")
  = (Return (Js.Str "1"), Scene.with_header "a=1;b=2;a=3;", []).
Proof.
  apply (getRequestProperty_reads_first_token (Scene.with_header "a=1;b=2;a=3;")
           [("a", "1"); ("b", "2"); ("a", "3")] "a").
  - reflexivity.
  - reflexivity.
Defined.

Lemma getResponseProperty_missing_reads_empty_witness :
  getResponseProperty "code" (set_responseHeader (Some "a=1;") Sample.idle)
  = (Return (Js.Str EmptyString), set_responseHeader (Some "a=1;") Sample.idle, []).
Proof.
  apply (getResponseProperty_missing_reads_empty
           (set_responseHeader (Some "a=1;") Sample.idle) [("a", "1")] "code").
  - reflexivity.
  - reflexivity.
  - discriminate.
Defined.

Lemma setRequestProperty_appends_new_key_witness :
  let c1 := set_requestHeader (Some "a=1;b=2;") (Scene.with_header "a=1;") in
  setRequestProperty "b" "2" (Scene.with_header "a=1;") = (Return tt, c1, [])
  /\ getRequestProperty "b" c1 = (Return (Js.Str "2"), c1, [])
  /\ forall other, other <> "b" ->
       completion_of (getRequestProperty other c1)
       = completion_of (getRequestProperty other (Scene.with_header "a=1;")).
Proof.
  apply (setRequestProperty_appends_new_key (Scene.with_header "a=1;") [("a", "1")] "b" "2").
  - reflexivity.
  - reflexivity.
  - reflexivity.
  - discriminate.
  - reflexivity.
  - reflexivity.
Defined.

Lemma setRequestProperty_replaces_token_witness :
  let c1 := set_requestHeader (Some "a=1;c=3;b=9;") (Scene.with_header "a=1;b=2;c=3;") in
  setRequestProperty "b" "9" (Scene.with_header "a=1;b=2;c=3;") = (Return tt, c1, [])
  /\ (Header.lookup "b" [("c", "3")] = None ->
      getRequestProperty "b" c1 = (Return (Js.Str "9"), c1, [])).
Proof.
  apply (setRequestProperty_replaces_token (Scene.with_header "a=1;b=2;c=3;")
           [("a", "1")] [("c", "3")] "b" "2" "9").
  - reflexivity.
  - reflexivity.
  - discriminate.
  - reflexivity.
  - reflexivity.
Defined.

Lemma set_twice_from_empty_header_witness :
  (setRequestProperty "token" "x";; setRequestProperty "token" "y";;
   getRequestProperty "token") Sample.idle
  = (Return (Js.Str "y"), set_requestHeader (Some "token=y;") Sample.idle, []).
Proof.
  apply (set_twice_from_empty_header Sample.idle "token" "x" "y").
  - reflexivity.
  - reflexivity.
  - reflexivity.
  - reflexivity.
Defined.

Lemma asyncSend_refusals_witness :
  readyState (socket Scene.closed) <> OPEN
  /\ (let refused := asyncSend (ext := Sample.characters) (OpName "echo") JNull
                       NotAnObject Sample.now Scene.closed in
      completion_of refused = Throw (MkError "Error" "callback must be an object")
      /\ client_of refused = Scene.closed
      /\ invocations (trace_of refused) = []
      /\ frames_sent (trace_of refused) = [])
  /\ (forall callback,
        let refused := asyncSend (ext := Sample.characters) (OpName "echo") JNull
                         (Object callback) Sample.now Scene.closed in
        completion_of refused = Throw (MkError "Error" "asyncSend: connection refuse")
        /\ client_of refused = Scene.closed
        /\ invocations (trace_of refused) = []
        /\ frames_sent (trace_of refused) = [])
  /\ (let refused := asyncSend (ext := Sample.characters) (OpName "echo") JNull
                       NullObject Sample.now Scene.closed in
      completion_of refused = Throw (MkError "Error" "asyncSend: connection refuse")
      /\ client_of refused = Scene.closed
      /\ invocations (trace_of refused) = []
      /\ frames_sent (trace_of refused) = []).
Proof.
  assert (Hclosed : readyState (socket Scene.closed) <> OPEN)
    by (vm_compute; discriminate).
  destruct (asyncSend_refusals (ext := Sample.characters) Scene.closed (OpName "echo")
              JNull Sample.now) as [Hany Hnot_open].
  split; [exact Hclosed|].
  split; [exact Hany|].
  exact (Hnot_open Hclosed).
Defined.

Lemma asyncSend_calls_onStart_before_failing_witness :
  asyncSend (ext := Sample.characters) (OpName "echo") JNull (Object Sample.hooks)
    Sample.now Scene.unprepared
  = (Throw (TypeError "Cannot set properties of undefined"), Scene.unprepared,
     [Console "info" ["websocket send data"]; Invoke "onStart" []]).
Proof.
  apply (asyncSend_calls_onStart_before_failing (ext := Sample.characters)
           Scene.unprepared (OpName "echo") JNull Sample.hooks Sample.now "onStart").
  - reflexivity.
  - reflexivity.
  - reflexivity.
Defined.

Lemma ping_replaces_previous_listener_witness :
  (ping (ext := Sample.characters) JNull Sample.hooks;;
   ping (ext := Sample.characters) JNull Scene.other_hooks) Sample.idle
  = (Return tt,
     set_requestCallback (Some {[ 0 := PingListener Scene.other_hooks ]}) Sample.idle,
     [SocketSend (Sample.frame 0 0 EmptyString "null");
      SocketSend (Sample.frame 0 0 EmptyString "null")]).
Proof.
  apply (ping_replaces_previous_listener (ext := Sample.characters)
           Sample.idle ∅ JNull Sample.hooks JNull Scene.other_hooks).
  - reflexivity.
  - reflexivity.
Defined.

Lemma add_then_remove_listener_witness :
  (addMessageListener (ext := Sample.characters) (OpName "news") (UserListener "listener");;
   removeMessageListener (ext := Sample.characters) (OpName "news")) Sample.idle
  = (Return tt,
     set_requestCallback (Some (delete (Crc.of_characters (OpName "news")) ∅)) Sample.idle,
     [])
  /\ ((∅ : gmap Z Listener) !! Crc.of_characters (OpName "news") = None ->
      (addMessageListener (ext := Sample.characters) (OpName "news")
         (UserListener "listener");;
       removeMessageListener (ext := Sample.characters) (OpName "news")) Sample.idle
      = (Return tt, Sample.idle, [])).
Proof.
  apply (add_then_remove_listener (ext := Sample.characters) Sample.idle ∅
           (OpName "news") (UserListener "listener")).
  reflexivity.
Defined.


Lemma removed_listener_hears_nothing_witness :
  let c := ready_client {[ Scene.news_key := UserListener "listener" ]} EmptyString in
  let c1 := client_of (removeMessageListener (ext := Sample.characters) (OpName "news") c) in
  exists t,
    ws_onmessage (ext := Sample.characters) (Blob Scene.news_frame) c1 = (Return tt, c1, t)
    /\ invocations t = [].
Proof.
  apply (removed_listener_hears_nothing (ext := Sample.characters)
           (ready_client {[ Scene.news_key := UserListener "listener" ]} EmptyString)
           {[ Scene.news_key := UserListener "listener" ]}
           (OpName "news") Scene.news_frame Scene.news_packet).
  - reflexivity.
  - vm_compute. reflexivity.
  - simpl. unfold MAX_PAYLOAD. lia.
  - reflexivity.
Defined.

Lemma same_key_calls_share_one_entry_witness :
  let sent := (asyncSend (ext := Sample.characters) (OpName "echo") JNull
                 (Object Sample.hooks) Sample.now;;
               asyncSend (ext := Sample.characters) (OpName "news") JNull
                 (Object Scene.other_hooks) Scene.collision_time) Sample.idle in
  let key := Crc.of_characters (OpName "news") + Scene.collision_time in
  let reply := Blob (Sample.echo_reply EmptyString "{}") in
  completion_of sent = Return tt
  /\ List.length (frames_sent (trace_of sent)) = 2%nat
  /\ requestCallback (client_of sent)
     = Some (<[key := AsyncSendListener Scene.other_hooks key]> ∅)
  /\ invocations (trace_of (ws_onmessage (ext := Sample.characters) reply (client_of sent)))
     = asyncSend_calls Scene.other_hooks EmptyString (JObject [])
  /\ invocations
       (trace_of (ws_onmessage (ext := Sample.characters) reply
                    (client_of (ws_onmessage (ext := Sample.characters) reply
                                  (client_of sent)))))
     = [].
Proof.
  apply (same_key_calls_share_one_entry (ext := Sample.characters)
           Sample.idle ∅ (OpName "echo") JNull Sample.hooks Sample.now
           (OpName "news") JNull Scene.other_hooks Scene.collision_time
           (Sample.echo_reply EmptyString "{}")
           (Scene.echo_packet EmptyString "{}") (JObject [])).
  - reflexivity.
  - reflexivity.
  - vm_compute. reflexivity.
  - vm_compute. reflexivity.
  - vm_compute. reflexivity.
  - simpl. unfold MAX_PAYLOAD. lia.
  - reflexivity.
Defined.


Lemma unparsable_body_keeps_the_entry_witness :
  ws_onmessage (ext := Sample.characters) (Blob (Sample.echo_reply "a=1;" "oops"))
    Sample.awaiting_echo
  = (Throw (MkError "Error" "SyntaxError: Unexpected token in JSON"),
     set_responseHeader (Some "a=1;") Sample.awaiting_echo,
     [UnPack (Sample.echo_reply "a=1;" "oops");
      Console "info" ["SyntaxError: Unexpected token in JSON"]]).
Proof.
  apply (unparsable_body_keeps_the_entry (ext := Sample.characters)
           Sample.awaiting_echo
           {[ Sample.echo_key := AsyncSendListener Sample.hooks Sample.echo_key ]}
           (Sample.echo_reply "a=1;" "oops") (Scene.echo_packet "a=1;" "oops")
           (AsyncSendListener Sample.hooks Sample.echo_key)).
  - reflexivity.
  - vm_compute. reflexivity.
  - simpl. unfold MAX_PAYLOAD. lia.
  - vm_compute. reflexivity.
  - reflexivity.
Defined.

Lemma undecodable_message_changes_nothing_witness :
  ws_onmessage (ext := Sample.characters) (Blob []) Sample.awaiting_echo
  = (Throw (MkError "Error" "RangeError: Offset is outside the bounds of the DataView"),
     Sample.awaiting_echo,
     [UnPack []; Console "info" ["RangeError: Offset is outside the bounds of the DataView"]])
  /\ ws_onmessage (ext := Sample.characters) (Text "hello") Sample.awaiting_echo
     = (Throw (MkError "Error" "websocket unsupported data format"),
        Sample.awaiting_echo, []).
Proof.
  apply (undecodable_message_changes_nothing (ext := Sample.characters)
           Sample.awaiting_echo []
           (MkError "RangeError" "Offset is outside the bounds of the DataView") "hello").
  reflexivity.
Defined.

Lemma fresh_client_rejects_every_frame_witness :
  let fresh := constructor "ws://host" (MkReadyStateCallback Absent Absent Absent) in
  ws_onmessage (ext := Sample.characters) (Blob Scene.news_frame) fresh
  = (Throw (MkError "Error" "TypeError: Cannot read properties of undefined"), fresh,
     [UnPack Scene.news_frame;
      Console "info" ["TypeError: Cannot read properties of undefined"]]).
Proof.
  apply (fresh_client_rejects_every_frame (ext := Sample.characters) "ws://host"
           (MkReadyStateCallback Absent Absent Absent) Scene.news_frame Scene.news_packet).
  - vm_compute. reflexivity.
  - simpl. unfold MAX_PAYLOAD. lia.
Defined.

Lemma reply_header_is_readable_witness :
  let c2 := client_of (ws_onmessage (ext := Sample.characters)
                         (Blob (Sample.echo_reply "code=404;message=not+found;" "{}"))
                         Sample.awaiting_echo) in
  responseHeader c2 = Some "code=404;message=not+found;"
  /\ getResponseProperty "message" c2
     = (Return (Header.getResponseProperty "code=404;message=not+found;" "message"),
        c2, []).
Proof.
  apply (reply_header_is_readable (ext := Sample.characters) Sample.awaiting_echo
           {[ Sample.echo_key := AsyncSendListener Sample.hooks Sample.echo_key ]}
           (Sample.echo_reply "code=404;message=not+found;" "{}")
           (Scene.echo_packet "code=404;message=not+found;" "{}")
           (AsyncSendListener Sample.hooks Sample.echo_key) (JObject []) "message").
  - reflexivity.
  - vm_compute. reflexivity.
  - simpl. unfold MAX_PAYLOAD. lia.
  - vm_compute. reflexivity.
  - reflexivity.
Defined.

Lemma socket_events_keep_the_tables_witness :
  same_tables Sample.awaiting_echo
    (client (steps (ext := Sample.characters) (start Sample.awaiting_echo)
               Scene.reconnection))
  /\ frames_sent (log (steps (ext := Sample.characters) (start Sample.awaiting_echo)
                         Scene.reconnection))
     = frames_sent (log (start Sample.awaiting_echo)).
Proof.
  apply (socket_events_keep_the_tables (ext := Sample.characters) Scene.reconnection
           (start Sample.awaiting_echo)).
  reflexivity.
Defined.



Lemma request_header_travels_with_frames_witness :
  frames_sent (trace_of ((setRequestProperty "token" "x";;
                          asyncSend (ext := Sample.characters) (OpName "echo") JNull
                            (Object Sample.hooks) Sample.now) Sample.idle))
  = [Wire.pack (Crc.of_string "echo") Sample.now (Js.Str "token=x;") "null"]
  /\ frames_sent (trace_of ((setResponseProperty "token" "x";;
                             asyncSend (ext := Sample.characters) (OpName "echo") JNull
                               (Object Sample.hooks) Sample.now) Sample.idle))
     = [Wire.pack (Crc.of_string "echo") Sample.now (Js.Str EmptyString) "null"].
Proof.
  apply (request_header_travels_with_frames (ext := Sample.characters)
           Sample.idle ∅ EmptyString EmptyString "token" "x" (OpName "echo") JNull
           Sample.hooks Sample.now).
  - reflexivity.
  - reflexivity.
  - reflexivity.
  - reflexivity.
Defined.

(** ** The response-side setter *)

Section ResponseTable.

Ltac unfold_monad :=
  cbv [mbind mret M_bind M_ret bind ret get modify emit throw try_catch].

Lemma setResponseProperty_runs c h key value :
  responseHeader c = Some h ->
  setResponseProperty key value c
  = (Return tt, set_responseHeader (Some (Header.setResponseProperty h key value)) c, []).
Proof.
  intros Hh. unfold setResponseProperty, getResponseProperty. unfold_monad.
  rewrite Hh. simpl. rewrite Hh. reflexivity.
Qed.

(** X27. [setResponseProperty] on a response header of well-formed tokens
    (keys and values free of [;] and [=]) that has a token for a key that is
    not empty, when no key of an earlier token ends with the key and the
    value is free of [;] and [=]: that token is removed and the new one
    appended, the other tokens keeping their order, and
    [getResponseProperty] then reads the new value when no later token has
    the key. *)
Theorem setResponseProperty_replaces_token c before after key old value :
  responseHeader c = Some (Header.encode (before ++ (key, old) :: after)) ->
  Header.well_formed (before ++ (key, old) :: after) = true ->
  key <> EmptyString ->
  Header.plain value = true ->
  Search.no_key_ends_with key before = true ->
  let c1 := set_responseHeader
              (Some (Header.encode (before ++ after ++ [(key, value)]))) c in
  setResponseProperty key value c = (Return tt, c1, [])
  /\ (Header.lookup key after = None ->
      getResponseProperty key c1 = (Return (Js.Str value), c1, [])).
Proof.
  intros Hh Hwf Hne Hv Hends c1.
  assert (Hparts := Hwf).
  rewrite TableFacts.well_formed_app in Hparts. simpl in Hparts.
  rewrite !andb_true_iff in Hparts. destruct Hparts as (Hwfb & (Hk & Hold) & Hwfa).
  assert (Hbefore := ClearFacts.no_key_ends_with_lookup key before Hends).
  split.
  - rewrite (setResponseProperty_runs c _ key value Hh). unfold c1. do 3 f_equal.
    unfold Header.setResponseProperty.
    rewrite (HeaderFacts.getResponseProperty_encode key _ Hwf Hne).
    rewrite TableFacts.lookup_app, Hbefore. cbn [Header.lookup].
    rewrite String.eqb_refl.
    change (Js.to_string (Js.Str (default EmptyString (Some old)))) with old.
    rewrite TableFacts.encode_token.
    rewrite (ReplaceFacts.replace_first (key ++ "=" ++ old ++ ";") EmptyString
               (Header.encode before) (Header.encode after)
               (ClearFacts.clear_before_tokens key (old ++ ";") before _
                  Hk Hne Hwfb Hends)).
    rewrite !TableFacts.encode_app, TableFacts.encode_single.
    simpl. rewrite !HeaderFacts.append_assoc. reflexivity.
  - intros Hafter.
    assert (Hh1 : responseHeader c1
                  = Some (Header.encode (before ++ after ++ [(key, value)])))
      by (destruct c; reflexivity).
    unfold getResponseProperty. unfold_monad. rewrite Hh1.
    rewrite (HeaderFacts.getResponseProperty_encode key); [| |exact Hne].
    + rewrite !TableFacts.lookup_app, Hbefore, Hafter. simpl.
      rewrite String.eqb_refl. reflexivity.
    + rewrite !TableFacts.well_formed_app, Hwfb, Hwfa. simpl. rewrite Hk, Hv. reflexivity.
Qed.

(** X28. [setResponseProperty] for a key that no token has searches the
    text [key=;], since a missing key reads as the empty text. On a response
    header of well-formed tokens (keys and values free of [;] and [=]), for
    a key that is not empty and free of [;] and [=], with which no key of
    the header ends, and a value free of [;] and [=], it appends the token
    [key=value;], and the key then reads as the value. *)
Theorem setResponseProperty_appends_new_key c kvs key value :
  responseHeader c = Some (Header.encode kvs) ->
  Header.well_formed kvs = true ->
  Header.plain key = true ->
  key <> EmptyString ->
  Header.plain value = true ->
  Search.no_key_ends_with key kvs = true ->
  let c1 := set_responseHeader (Some (Header.encode (kvs ++ [(key, value)]))) c in
  setResponseProperty key value c = (Return tt, c1, [])
  /\ getResponseProperty key c1 = (Return (Js.Str value), c1, []).
Proof.
  intros Hh Hwf Hk Hne Hv Hends c1.
  assert (Hnew := ClearFacts.no_key_ends_with_lookup key kvs Hends).
  split.
  - rewrite (setResponseProperty_runs c _ key value Hh). unfold c1. do 3 f_equal.
    unfold Header.setResponseProperty.
    rewrite (HeaderFacts.getResponseProperty_encode key _ Hwf Hne), Hnew.
    change (Js.to_string (Js.Str (default EmptyString None))) with EmptyString.
    rewrite (ReplaceFacts.replace_absent (key ++ "=" ++ EmptyString ++ ";") EmptyString
               (Header.encode kvs)).
    + rewrite TableFacts.encode_app, TableFacts.encode_single. reflexivity.
    + apply ClearFacts.clear_before_includes; [destruct key; discriminate|].
      exact (ClearFacts.clear_before_tokens key ";" kvs EmptyString Hk Hne Hwf Hends).
  - assert (Hh1 : responseHeader c1 = Some (Header.encode (kvs ++ [(key, value)])))
      by (destruct c; reflexivity).
    unfold getResponseProperty. unfold_monad. rewrite Hh1.
    rewrite (HeaderFacts.getResponseProperty_encode key); [| |exact Hne].
    + rewrite TableFacts.lookup_app, Hnew. simpl. rewrite String.eqb_refl. reflexivity.
    + rewrite TableFacts.well_formed_app, Hwf. simpl. rewrite Hk, Hv. reflexivity.
Qed.

End ResponseTable.

Lemma setResponseProperty_replaces_token_witness :
  let c := set_responseHeader (Some "a=1;code=404;b=2;") Sample.idle in
  let c1 := set_responseHeader (Some "a=1;b=2;code=200;") c in
  setResponseProperty "code" "200" c = (Return tt, c1, [])
  /\ (Header.lookup "code" [("b", "2")] = None ->
      getResponseProperty "code" c1 = (Return (Js.Str "200"), c1, [])).
Proof.
  apply (setResponseProperty_replaces_token
           (set_responseHeader (Some "a=1;code=404;b=2;") Sample.idle)
           [("a", "1")] [("b", "2")] "code" "404" "200").
  - reflexivity.
  - reflexivity.
  - discriminate.
  - reflexivity.
  - reflexivity.
Defined.

Lemma setResponseProperty_appends_new_key_witness :
  let c := set_responseHeader (Some "a=1;") Sample.idle in
  let c1 := set_responseHeader (Some "a=1;code=200;") c in
  setResponseProperty "code" "200" c = (Return tt, c1, [])
  /\ getResponseProperty "code" c1 = (Return (Js.Str "200"), c1, []).
Proof.
  apply (setResponseProperty_appends_new_key
           (set_responseHeader (Some "a=1;") Sample.idle) [("a", "1")] "code" "200").
  - reflexivity.
  - reflexivity.
  - reflexivity.
  - discriminate.
  - reflexivity.
  - reflexivity.
Defined.
